(** * RAG data pipeline: VectorStore, Retriever, LLM and RAGPipeline

    A shallow embedding of the TypeScript classes of the repository
    ([src/classes/vector-store.ts], [src/classes/retriever.ts],
    [src/llm.ts], [src/pipeline.ts], [src/data-loader.ts]) and the
    properties that the design document states about them.

    Modelling choices, all taken from the way the code is written:
    - a JavaScript [number] is a rational or one of NaN, +Infinity,
      -Infinity; the code only compares numbers and tests their
      truthiness, it never computes with them;
    - a [RagDocument] is a mutable object: documents live in a heap and
      arrays of documents are lists of references, so that the store and
      its callers can share (and mutate) one object;
    - [async] methods are computations in a state-and-exception monad
      over a [World]: the document heap and the history of calls made to
      the external services (embedding provider, Astra DB, OpenAI chat);
      a rejected promise is [Throw], and the answer of an external
      service is a function of the history of calls made so far;
    - the in-memory store is a JavaScript [Map], an insertion-ordered
      table with at most one entry per key;
    - [console.log], [console.warn] and [console.error] are not modelled;
    - an async generator ([generateStream], [queryStream]) is what a
      consumer that reads it to its end receives: the strings yielded
      and the error that ended it, if any. *)

From Stdlib Require Import List String Ascii Bool Arith ZArith QArith Qround Qabs Lia.
Import ListNotations.

Local Open Scope string_scope.
Local Open Scope nat_scope.
Local Open Scope list_scope.

(** ** JavaScript numbers *)

Inductive number : Type :=
| NaN
| NegInfinity
| Fin (q : Q)
| Infinity.

(** [a <= b] on numbers: every comparison with NaN is false. *)
Definition num_leb (a b : number) : bool :=
  match a with
  | NaN => false
  | NegInfinity => match b with NaN => false | _ => true end
  | Fin x =>
      match b with
      | Fin y => Qle_bool x y
      | Infinity => true
      | _ => false
      end
  | Infinity => match b with Infinity => true | _ => false end
  end.


(** [a >= b] is [b <= a]. *)
Definition num_geb (a b : number) : bool := num_leb b a.

(** Truthiness of a number: 0 and NaN are falsy. *)
Definition truthy (n : number) : bool :=
  match n with
  | NaN => false
  | Fin q => negb (Qeq_bool q 0)
  | _ => true
  end.

(** [x || d] where [x] is an optional number ([undefined] is falsy). *)
Definition or_default (x : option number) (d : number) : number :=
  match x with
  | Some n => if truthy n then n else d
  | None => d
  end.

(** The result of ECMAScript's ToIntegerOrInfinity. *)
Inductive integerOrInfinity : Type :=
| MinusInf
| Int (z : Z)
| PlusInf.

Definition Qtruncate (q : Q) : Z :=
  if Qle_bool 0 q then Qfloor q else Qceiling q.

Definition ToIntegerOrInfinity (n : number) : integerOrInfinity :=
  match n with
  | NaN => Int 0
  | NegInfinity => MinusInf
  | Fin q => Int (Qtruncate q)
  | Infinity => PlusInf
  end.

(** [arr.slice(0, end)] of Array.prototype.slice: a negative [end]
    counts from the end of the array. *)
Definition slice0 {A : Type} (arr : list A) (end_ : number) : list A :=
  let len := Z.of_nat (List.length arr) in
  let final :=
    match ToIntegerOrInfinity end_ with
    | MinusInf => 0%Z
    | Int relativeEnd =>
        if (relativeEnd <? 0)%Z then Z.max (len + relativeEnd) 0
        else Z.min relativeEnd len
    | PlusInf => len
    end in
  firstn (Z.to_nat final) arr.

(** [arr.join(separator)] of Array.prototype.join, as the loop of the
    language definition: the separator is appended before every element
    but the first. *)
Definition joinStep (separator : string) (acc : string * nat) (element : string)
  : string * nat :=
  let (R, k) := acc in
  let R := if 0 <? k then (R ++ separator)%string else R in
  ((R ++ element)%string, S k).

Definition join (arr : list string) (separator : string) : string :=
  fst (fold_left (joinStep separator) arr (EmptyString, 0)).

Definition nonEmpty (s : string) : bool :=
  match s with EmptyString => false | _ => true end.

Definition isSome {A : Type} (o : option A) : bool :=
  match o with Some _ => true | None => false end.

(** ** Documents ([src/data-loader.ts]) *)

Definition Metadata : Type := list (string * string).

Module RagDocument.
Record t : Type := mk {
  id : string;
  content : string;
  metadata : option Metadata;
  embedding : option (list number);
  similarity : option number
}.

Definition with_embedding (doc : t) (e : option (list number)) : t :=
  mk (id doc) (content doc) (metadata doc) e (similarity doc).
End RagDocument.

(** ** The world: document heap and history of external calls *)

Definition loc : Type := nat.

Definition Heap : Type := loc -> RagDocument.t.

Definition upd (h : Heap) (l : loc) (d : RagDocument.t) : Heap :=
  fun l' => if Nat.eqb l' l then d else h l'.

(** A record as it is sent to, and read back from, an Astra DB
    collection; [vector] is the reserved field [$vector] and
    [dollar_similarity] the field [$similarity] of a search result. *)
Record AstraDocument : Type := mkAstraDocument {
  _id : string;
  text : string;
  vector : option (list number);
  astra_metadata : option Metadata;
  dollar_similarity : option number
}.

Inductive Event : Type :=
| GenerateEmbeddingsCall (model : string) (texts : list string)
| InsertManyCall (collection : string) (docs : list AstraDocument)
| FindCall (collection : string) (sortVector : list number) (limit : number)
| ChatCompletionsCall (model : string) (prompt : string).

Record World : Type := mkWorld {
  heap : Heap;
  nextLoc : loc;
  trace : list Event
}.

Definition JsError : Type := string.

Inductive Result (A : Type) : Type :=
| Ok (a : A)
| Throw (e : JsError).
Arguments Ok {A} a.
Arguments Throw {A} e.

(** An [async] computation: runs in a world, resolves or rejects, and
    leaves a world behind in both cases. *)
Definition M (A : Type) : Type := World -> Result A * World.

Definition ret {A : Type} (a : A) : M A := fun w => (Ok a, w).

Definition throw {A : Type} (e : JsError) : M A := fun w => (Throw e, w).

Definition bind {A B : Type} (c : M A) (k : A -> M B) : M B :=
  fun w =>
    match c w with
    | (Ok a, w') => k a w'
    | (Throw e, w') => (Throw e, w')
    end.

Declare Scope js_scope.
Delimit Scope js_scope with js.
Notation "x <- c1 ;; c2" := (bind c1 (fun x => c2))
  (at level 100, c1 at next level, right associativity) : js_scope.
Notation "c1 ;;; c2" := (bind c1 (fun _ => c2))
  (at level 100, right associativity) : js_scope.

Definition get_heap : M Heap := fun w => (Ok (heap w), w).

(** A call to an external service: the answer depends on the calls made
    so far, and the call is appended to the history whether it resolves
    or rejects. *)
Definition external {A : Type} (ev : Event) (answer : list Event -> Result A) : M A :=
  fun w => (answer (trace w), mkWorld (heap w) (nextLoc w) (trace w ++ [ev])).

(** An object literal [{...}] typed [RagDocument]: a new object. *)
Definition alloc (d : RagDocument.t) : M loc :=
  fun w => (Ok (nextLoc w), mkWorld (upd (heap w) (nextLoc w) d) (S (nextLoc w)) (trace w)).

(** [arr.map(f)] where [f] builds a new object for every element. *)
Fixpoint mapM {A B : Type} (f : A -> M B) (arr : list A) : M (list B) :=
  match arr with
  | [] => ret []
  | a :: rest =>
      (b <- f a ;;
       bs <- mapM f rest ;;
       ret (b :: bs))%js
  end.

(** [arr.forEach((x, index) => ...)], from [index] on. *)
Fixpoint forEach_from {A : Type} (arr : list A) (index : nat) (f : A -> nat -> M unit) : M unit :=
  match arr with
  | [] => ret tt
  | a :: rest => (f a index ;;; forEach_from rest (S index) f)%js
  end.

Definition forEach {A : Type} (arr : list A) (f : A -> nat -> M unit) : M unit :=
  forEach_from arr 0 f.

(** ** JavaScript [Map<string, V>]: insertion-ordered, one entry per key *)

Module JsMap.
Definition t (V : Type) : Type := list (string * V).

Definition empty {V : Type} : t V := [].

(** [map.set(k, v)]: an existing key keeps its position. *)
Fixpoint set {V : Type} (k : string) (v : V) (m : t V) : t V :=
  match m with
  | [] => [(k, v)]
  | (k', v') :: rest =>
      if String.eqb k' k then (k, v) :: rest else (k', v') :: set k v rest
  end.

Fixpoint get {V : Type} (k : string) (m : t V) : option V :=
  match m with
  | [] => None
  | (k', v') :: rest => if String.eqb k' k then Some v' else get k rest
  end.

(** [Array.from(map.values())]. *)
Definition values {V : Type} (m : t V) : list V := map snd m.

Definition keys {V : Type} (m : t V) : list string := map fst m.

(** The entries stored under key [k]. *)
Definition entries_for {V : Type} (k : string) (m : t V) : list (string * V) :=
  filter (fun kv => String.eqb (fst kv) k) m.
End JsMap.

(** ** Embedding models ([interface EmbeddingModel]) *)

Module EmbeddingModel.
(** An implementation of the interface: [respond] is what the
    provider answers to a batch of texts, given the calls made so
    far (it may reject, and nothing forces it to return one vector
    per text). *)
Record t : Type := mk {
  name : string;
  dimensions : option number;
  respond : list Event -> list string -> Result (list (list number))
}.

(** The method call [model.generateEmbeddings(texts)]. *)
Definition generateEmbeddings (model : t) (texts : list string) : M (list (list number)) :=
  external (GenerateEmbeddingsCall (name model) texts)
           (fun history => respond model history texts).
End EmbeddingModel.

(** [class PlaceholderEmbeddingModel]: one vector of [dimensions]
    draws of [Math.random()] per text; [random history i j] is the
    draw for component [j] of text [i]. *)
Definition PlaceholderEmbeddingModel (random : list Event -> nat -> nat -> number)
  : EmbeddingModel.t :=
  EmbeddingModel.mk "text-embedding-3-small" (Some (Fin 1536))
    (fun history texts =>
       Ok (map (fun i => map (fun j => random history i j) (seq 0 1536))
               (seq 0 (List.length texts)))).

(** ** Astra DB collections (the [@datastax/astra-db-ts] client) *)

Record InsertManyResult : Type := mkInsertManyResult {
  insertedCount : number;
  insertedIds : list string
}.

Module AstraCollection.
Record t : Type := mk {
  collectionName : string;
  insertMany_answer : list Event -> list AstraDocument -> Result InsertManyResult;
  find_answer : list Event -> list number -> number -> Result (list AstraDocument)
}.

Definition insertMany (c : t) (docs : list AstraDocument) : M InsertManyResult :=
  external (InsertManyCall (collectionName c) docs)
           (fun history => insertMany_answer c history docs).

(** [collection.find({}, {sort: {$vector: v}, limit, includeSimilarity: true}).toArray()]. *)
Definition find (c : t) (sortVector : list number) (limit : number) : M (list AstraDocument) :=
  external (FindCall (collectionName c) sortVector limit)
           (fun history => find_answer c history sortVector limit).
End AstraCollection.

(** ** VectorStore ([src/classes/vector-store.ts]) *)

Inductive VectorStoreConfig : Type :=
| InMemoryStoreConfig
| AstraDBStoreConfig (token endpoint collectionName keyspace : string)
                     (embeddingDimension : number).

Module VectorStore.
Record t : Type := mk {
  config : VectorStoreConfig;
  embeddingModel : EmbeddingModel.t;
  inMemoryStore : option (JsMap.t loc);
  astraCollection : option AstraCollection.t
}.

(** [new VectorStore(config, embeddingModel?)]. [connect] stands for
    [new DataAPIClient(token).db(endpoint, {keyspace}).collection(name)],
    which may throw; [random] feeds the placeholder model. *)
Definition new
  (connect : string -> string -> string -> string -> Result AstraCollection.t)
  (random : list Event -> nat -> nat -> number)
  (config : VectorStoreConfig) (embeddingModel : option EmbeddingModel.t) : Result t :=
  let model :=
    match embeddingModel with
    | Some m => m
    | None => PlaceholderEmbeddingModel random
    end in
  match config with
  | InMemoryStoreConfig => Ok (mk config model (Some JsMap.empty) None)
  | AstraDBStoreConfig token endpoint collectionName keyspace _ =>
      match connect token endpoint keyspace collectionName with
      | Ok collection => Ok (mk config model None (Some collection))
      | Throw message =>
          Throw ("AstraDB client initialization failed: " ++ message)%string
      end
  end.

(** The callback of [documents.filter(doc => !doc.embedding && doc.content)]. *)
Definition needsEmbedding (h : Heap) (doc : loc) : bool :=
  negb (isSome (RagDocument.embedding (h doc)))
  && nonEmpty (RagDocument.content (h doc)).

(** [doc.embedding = e], on the object itself. *)
Definition assignEmbedding (doc : loc) (e : option (list number)) : M unit :=
  fun w =>
    (Ok tt,
     mkWorld (upd (heap w) doc (RagDocument.with_embedding (heap w doc) e))
             (nextLoc w) (trace w)).

(** The [for] loop of the in-memory branch:
    [if (doc.embedding) this.inMemoryStore.set(doc.id, doc)]. *)
Definition storeAll (h : Heap) (documents : list loc) (store : JsMap.t loc) : JsMap.t loc :=
  fold_left
    (fun store doc =>
       if isSome (RagDocument.embedding (h doc))
       then JsMap.set (RagDocument.id (h doc)) doc store
       else store)
    documents store.

(** The record built for Astra DB from a document. *)
Definition toAstraDocument (d : RagDocument.t) : AstraDocument :=
  mkAstraDocument (RagDocument.id d) (RagDocument.content d)
                  (RagDocument.embedding d) (RagDocument.metadata d) None.

(** [addDocuments], the embedding step: the documents without an
    embedding and with content are embedded in one batch, and
    [embeddings[index]] is assigned to the document at [index]. *)
Definition embedMissing (this : t) (documents : list loc) : M unit :=
  (h <- get_heap ;;
   let docsToEmbed := filter (needsEmbedding h) documents in
   if 0 <? List.length docsToEmbed
   then
     let contents := map (fun doc => RagDocument.content (h doc)) docsToEmbed in
     embeddings <- EmbeddingModel.generateEmbeddings (embeddingModel this) contents ;;
     forEach docsToEmbed (fun doc index => assignEmbedding doc (nth_error embeddings index))
   else ret tt)%js.

(** [addDocuments], the [switch] on the provider. *)
Definition storeDocuments (this : t) (documents : list loc) : M t :=
  (h <- get_heap ;;
   match config this with
   | InMemoryStoreConfig =>
       match inMemoryStore this with
       | None => throw "In-memory store not initialized."
       | Some store =>
           ret (mk (config this) (embeddingModel this)
                   (Some (storeAll h documents store)) (astraCollection this))
       end
   | AstraDBStoreConfig _ _ _ _ _ =>
       match astraCollection this with
       | None => throw "AstraDB collection not initialized."
       | Some collection =>
           let astraDocs :=
             map (fun doc => toAstraDocument (h doc))
                 (filter (fun doc => isSome (RagDocument.embedding (h doc))) documents) in
           if 0 <? List.length astraDocs
           then (_ <- AstraCollection.insertMany collection astraDocs ;; ret this)
           else ret this
       end
   end)%js.

(** [addDocuments(documents)]; the loop that only warns about the
    documents left without an embedding has no effect. *)
Definition addDocuments (this : t) (documents : list loc) : M t :=
  if List.length documents =? 0 then ret this
  else (embedMissing this documents ;;; storeDocuments this documents)%js.

(** The object built from a search result of Astra DB. *)
Definition fromAstraDocument (a : AstraDocument) : RagDocument.t :=
  RagDocument.mk (_id a) (text a) (astra_metadata a) (vector a) (dollar_similarity a).

Definition similaritySearch (this : t) (queryEmbedding : list number) (topK : number)
  : M (list loc) :=
  match config this with
  | InMemoryStoreConfig =>
      match inMemoryStore this with
      | None => throw "In-memory store not initialized."
      | Some store =>
          let allDocs := JsMap.values store in
          ret (slice0 allDocs topK)
      end
  | AstraDBStoreConfig _ _ _ _ _ =>
      match astraCollection this with
      | None => throw "AstraDB collection not initialized."
      | Some collection =>
          (astraResults <- AstraCollection.find collection queryEmbedding topK ;;
           mapM (fun astraDoc => alloc (fromAstraDocument astraDoc)) astraResults)%js
      end
  end.
End VectorStore.

(** ** Retriever ([src/classes/retriever.ts]) *)

Record RetrieverConfig : Type := mkRetrieverConfig {
  cfg_vectorStore : VectorStore.t;
  cfg_embeddingModel : EmbeddingModel.t;
  cfg_topK : option number;
  cfg_similarityThreshold : option number
}.

Definition defaultTopK : number := Fin 5.
Definition defaultSimilarityThreshold : number := Fin (7 # 10).

Module Retriever.
Record t : Type := mk {
  vectorStore : VectorStore.t;
  embeddingModel : EmbeddingModel.t;
  topK : number;
  similarityThreshold : number
}.

(** [new Retriever(config)]. *)
Definition new (config : RetrieverConfig) : t :=
  mk (cfg_vectorStore config)
     (cfg_embeddingModel config)
     (or_default (cfg_topK config) defaultTopK)
     (or_default (cfg_similarityThreshold config) defaultSimilarityThreshold).

(** The callback of [retrievedDocuments.filter(doc => ...)]. *)
Definition isRelevant (this : t) (h : Heap) (doc : loc) : bool :=
  match RagDocument.similarity (h doc) with
  | Some similarity => num_geb similarity (similarityThreshold this)
  | None => true
  end.

Definition retrieve (this : t) (query : string) : M (list loc) :=
  (embeddings <- EmbeddingModel.generateEmbeddings (embeddingModel this) [query] ;;
   match embeddings with
   | [] => ret []
   | queryEmbedding :: _ =>
       retrievedDocuments <-
         VectorStore.similaritySearch (vectorStore this) queryEmbedding (topK this) ;;
       h <- get_heap ;;
       ret (filter (isRelevant this h) retrievedDocuments)
   end)%js.

Definition separator : string :=
  String "010" (String "010" ("---" ++ String "010" (String "010" EmptyString)))%string.

Definition formatContext (h : Heap) (documents : list loc) : string :=
  join (map (fun doc => RagDocument.content (h doc)) documents) separator.
End Retriever.

(** ** LLM ([src/llm.ts]) *)

Record Usage : Type := mkUsage {
  prompt_tokens : option number;
  completion_tokens : option number;
  total_tokens : option number
}.

Record Choice : Type := mkChoice {
  message_content : option (option string);
  finish_reason : string
}.

Record ChatCompletion : Type := mkChatCompletion {
  choices : list Choice;
  usage : option Usage
}.

Record TokenUsage : Type := mkTokenUsage {
  promptTokens : option number;
  completionTokens : option number;
  totalTokens : option number
}.

Record ResponseMetadata : Type := mkResponseMetadata {
  finishReason : option string;
  tokenUsage : option TokenUsage;
  providerResponse : option ChatCompletion
}.

Record LLMResponse : Type := mkLLMResponse {
  response_text : string;
  sourceDocuments : option (list loc);
  response_metadata : option ResponseMetadata
}.

Record LLMConfig : Type := mkLLMConfig {
  modelName : string;
  apiKey : string;
  temperature : option number;
  maxTokens : option number
}.

(** The OpenAI client: [chat.completions.create] answers a prompt. *)
Record OpenAI : Type := mkOpenAI {
  create_answer : list Event -> LLMConfig -> string -> Result ChatCompletion
}.

Module LLM.
Record t : Type := mk {
  config : LLMConfig;
  openaiClient : option OpenAI
}.

(** [new LLM(config)], for the only provider ['openai']. *)
Definition new (newOpenAI : string -> OpenAI) (config : LLMConfig) : Result t :=
  if nonEmpty (apiKey config)
  then Ok (mk config (Some (newOpenAI (apiKey config))))
  else Throw "OpenAI API key is required for the OpenAI LLM provider.".

Definition generate (this : t) (prompt : string) : M LLMResponse :=
  match openaiClient this with
  | Some client =>
      (completion <-
         external (ChatCompletionsCall (modelName (config this)) prompt)
                  (fun history => create_answer client history (config this) prompt) ;;
       match choices completion with
       | [] => throw "TypeError: Cannot read properties of undefined (reading 'message')"
       | choice :: _ =>
           let content :=
             match message_content choice with
             | Some (Some s) => s
             | _ => EmptyString
             end in
           let u := usage completion in
           ret (mkLLMResponse content None
                  (Some (mkResponseMetadata
                           (Some (finish_reason choice))
                           (Some (mkTokenUsage
                                    (match u with Some u => prompt_tokens u | None => None end)
                                    (match u with Some u => completion_tokens u | None => None end)
                                    (match u with Some u => total_tokens u | None => None end)))
                           (Some completion))))
       end)%js
  | None =>
      let dummyText :=
        ("Dummy response for " ++ modelName (config this) ++ ". Prompt: "
           ++ substring 0 30 prompt ++ "...")%string in
      ret (mkLLMResponse dummyText None
             (Some (mkResponseMetadata (Some "error")
                      (Some (mkTokenUsage None None (Some (Fin 0)))) None)))
  end.
End LLM.

(** ** RAGPipeline ([src/pipeline.ts]) *)

Record RAGPipelineConfig : Type := mkRAGPipelineConfig {
  pcfg_vectorStore : VectorStore.t;
  pcfg_retrieverEmbeddingModel : EmbeddingModel.t;
  pcfg_llm : LLM.t;
  pcfg_retrieverTopK : option number;
  pcfg_retrieverSimilarityThreshold : option number;
  pcfg_promptTemplate : option (string -> string -> string)
}.

Definition newline : string := String "010" EmptyString.

Definition defaultPromptTemplate (context query : string) : string :=
  ("Context information is provided below." ++ newline
     ++ "---------------------" ++ newline
     ++ context ++ newline
     ++ "---------------------" ++ newline
     ++ "Given the context information and not prior knowledge, answer the query." ++ newline
     ++ "Query: " ++ query ++ newline
     ++ "Answer:")%string.

Definition noContextText : string :=
  "I couldn't find any specific information related to your query in my current knowledge base.".

Module RAGPipeline.
Record t : Type := mk {
  vectorStore : VectorStore.t;
  retriever : Retriever.t;
  llm : LLM.t;
  promptTemplate : string -> string -> string
}.

(** [new RAGPipeline(config)]. *)
Definition new (config : RAGPipelineConfig) : t :=
  mk (pcfg_vectorStore config)
     (Retriever.new
        (mkRetrieverConfig
           (pcfg_vectorStore config)
           (pcfg_retrieverEmbeddingModel config)
           (pcfg_retrieverTopK config)
           (Some (or_default (pcfg_retrieverSimilarityThreshold config)
                             defaultSimilarityThreshold))))
     (pcfg_llm config)
     (match pcfg_promptTemplate config with
      | Some template => template
      | None => defaultPromptTemplate
      end).

(** [pipeline.addDocuments(documents)]: the store is one object,
    shared by the pipeline and its retriever. *)
Definition addDocuments (this : t) (documents : list loc) : M t :=
  (store <- VectorStore.addDocuments (vectorStore this) documents ;;
   ret (mk store
           (Retriever.mk store
              (Retriever.embeddingModel (retriever this))
              (Retriever.topK (retriever this))
              (Retriever.similarityThreshold (retriever this)))
           (llm this) (promptTemplate this)))%js.

Definition query (this : t) (query : string) : M LLMResponse :=
  (relevantDocuments <- Retriever.retrieve (retriever this) query ;;
   if List.length relevantDocuments =? 0
   then
     ret (mkLLMResponse noContextText (Some [])
            (Some (mkResponseMetadata (Some "no_context") None None)))
   else
     h <- get_heap ;;
     let context := Retriever.formatContext h relevantDocuments in
     let fullPrompt := promptTemplate this context query in
     llmResponse <- LLM.generate (llm this) fullPrompt ;;
     ret (mkLLMResponse (response_text llmResponse)
            (Some relevantDocuments)
            (response_metadata llmResponse)))%js.
End RAGPipeline.

(** ** Observations on the history of external calls *)

(** The batches of texts sent to [generateEmbeddings], oldest first. *)
Fixpoint embeddingCalls (history : list Event) : list (list string) :=
  match history with
  | [] => []
  | GenerateEmbeddingsCall _ texts :: rest => texts :: embeddingCalls rest
  | _ :: rest => embeddingCalls rest
  end.

(** The prompts sent to the generator, oldest first. *)
Fixpoint generatorCalls (history : list Event) : list string :=
  match history with
  | [] => []
  | ChatCompletionsCall _ prompt :: rest => prompt :: generatorCalls rest
  | _ :: rest => generatorCalls rest
  end.

(** The calls made to a storage backend, oldest first. *)
Fixpoint storageCalls (history : list Event) : list Event :=
  match history with
  | [] => []
  | InsertManyCall c docs :: rest => InsertManyCall c docs :: storageCalls rest
  | FindCall c v k :: rest => FindCall c v k :: storageCalls rest
  | _ :: rest => storageCalls rest
  end.

(** A world after one more external call. *)
Definition after (w : World) (ev : Event) : World :=
  mkWorld (heap w) (nextLoc w) (trace w ++ [ev]).

(** Two versions of one document that differ at most by [embedding]. *)
Definition sameButEmbedding (d d' : RagDocument.t) : Prop :=
  RagDocument.id d' = RagDocument.id d
  /\ RagDocument.content d' = RagDocument.content d
  /\ RagDocument.metadata d' = RagDocument.metadata d
  /\ RagDocument.similarity d' = RagDocument.similarity d.

(** [doc] is at [index] in [docs] and at no later index. *)
Definition lastAt (docs : list loc) (index : nat) (doc : loc) : Prop :=
  nth_error docs index = Some doc
  /\ forall j, index < j -> nth_error docs j <> Some doc.

(** ** The ranking that the design document asks of the in-memory search *)

Definition dot (a b : list Q) : Q :=
  fold_right Qplus 0%Q (map (fun p => (fst p * snd p)%Q) (combine a b)).

(** For the cosine [c] of the angle between [a] and [b], that is
    [dot a b / sqrt (dot a a * dot b b)], the number [c * |c|]: it
    orders vectors exactly as the cosine does and needs no square root. *)
Definition cosineSignedSquare (a b : list Q) : Q :=
  ((dot a b * Qabs (dot a b)) / (dot a a * dot b b))%Q.


(** ** Auxiliary functions used in the statements *)

(** The text that [join] adds after the first element. *)
Fixpoint joinTail (arr : list string) (separator : string) : string :=
  match arr with
  | [] => EmptyString
  | element :: rest => (separator ++ element ++ joinTail rest separator)%string
  end.

(** The heap after [docs.forEach((doc, index) => doc.embedding = embeddings[index])],
    counting from [index]. *)
Fixpoint assignAll (docs : list loc) (index : nat) (embeddings : list (list number))
  (h : Heap) : Heap :=
  match docs with
  | [] => h
  | doc :: rest =>
      assignAll rest (S index) embeddings
        (upd h doc (RagDocument.with_embedding (h doc) (nth_error embeddings index)))
  end.

(** What [addDocuments] embeds in a world [w]: the documents to embed,
    their contents, the call made to the provider and its answer. *)
Definition docsToEmbed (w : World) (documents : list loc) : list loc :=
  filter (VectorStore.needsEmbedding (heap w)) documents.

Definition batchContents (w : World) (documents : list loc) : list string :=
  map (fun doc => RagDocument.content (heap w doc)) (docsToEmbed w documents).

Definition batchCall (this : VectorStore.t) (w : World) (documents : list loc) : Event :=
  GenerateEmbeddingsCall (EmbeddingModel.name (VectorStore.embeddingModel this))
                         (batchContents w documents).

Definition batchAnswer (this : VectorStore.t) (w : World) (documents : list loc)
  : Result (list (list number)) :=
  EmbeddingModel.respond (VectorStore.embeddingModel this) (trace w)
                         (batchContents w documents).

(** [doc], at [index] in [docs], carries an embedding and is the last
    document of [docs] to do so under its id: the document that the
    in-memory loop of [addDocuments] stores last under that id. *)
Definition lastStored (h : Heap) (docs : list loc) (index : nat) (doc : loc) : Prop :=
  nth_error docs index = Some doc
  /\ RagDocument.embedding (h doc) <> None
  /\ forall j d,
       index < j ->
       nth_error docs j = Some d ->
       RagDocument.embedding (h d) <> None ->
       RagDocument.id (h d) <> RagDocument.id (h doc).

(** The call that [retrieve] makes to embed the query. *)
Definition queryCall (this : Retriever.t) (query : string) : Event :=
  GenerateEmbeddingsCall (EmbeddingModel.name (Retriever.embeddingModel this)) [query].

(** ** Sample objects *)

Module Sample.
Definition noDocument : RagDocument.t := RagDocument.mk "" "" None None None.

Definition e1 : list Q := [1; 0]%Q.
Definition e2 : list Q := [0; 1]%Q.

(** Two documents embedded by the caller, a revision of the first
    one that is not embedded yet, a document without content, and
    three search results carrying a similarity. *)
Definition documents : Heap :=
  fun l =>
    match l with
    | 0 => RagDocument.mk "a" "alpha" None (Some (map Fin e1)) None
    | 1 => RagDocument.mk "b" "beta" None (Some (map Fin e2)) None
    | 2 => RagDocument.mk "a" "alpha, revised" None None None
    | 3 => RagDocument.mk "c" "" None None None
    | 4 => RagDocument.mk "d" "delta" None None (Some (Fin (1 # 2)))
    | 5 => RagDocument.mk "e" "epsilon" None None (Some (Fin (9 # 10)))
    | 6 => RagDocument.mk "f" "phi" None None (Some (Fin (3 # 5)))
    | _ => noDocument
    end.

Definition world : World := mkWorld documents 7 [].

(** A provider that answers one vector per text. *)
Definition model : EmbeddingModel.t :=
  EmbeddingModel.mk "sample-embedding" (Some (Fin 2))
    (fun _ texts => Ok (map (fun _ => map Fin e2) texts)).

(** A provider whose call is rejected. *)
Definition failingModel : EmbeddingModel.t :=
  EmbeddingModel.mk "failing-embedding" None
    (fun _ _ => Throw "429 Too Many Requests").

(** A provider that answers no vector at all. *)
Definition silentModel : EmbeddingModel.t :=
  EmbeddingModel.mk "silent-embedding" None (fun _ _ => Ok []).

Definition emptyStore : VectorStore.t :=
  VectorStore.mk InMemoryStoreConfig model (Some JsMap.empty) None.

(** An in-memory store that already holds the two scored documents. *)
Definition scoredStore : VectorStore.t :=
  VectorStore.mk InMemoryStoreConfig model (Some [("d", 4); ("e", 5)]) None.

(** The store and the world after [addDocuments] of the two embedded
    documents, and then after [addDocuments] of the revision and of
    the document without content. *)
Definition run1 : Result VectorStore.t * World :=
  VectorStore.addDocuments emptyStore [0; 1] world.
Definition store1 : VectorStore.t :=
  match fst run1 with Ok s => s | Throw _ => emptyStore end.
Definition world1 : World := snd run1.
Definition run2 : Result VectorStore.t * World :=
  VectorStore.addDocuments store1 [2; 3] world1.
Definition store2 : VectorStore.t :=
  match fst run2 with Ok s => s | Throw _ => emptyStore end.
Definition world2 : World := snd run2.

(** An in-memory store whose documents are all scored below 0.7. *)
Definition lowStore : VectorStore.t :=
  VectorStore.mk InMemoryStoreConfig model (Some [("d", 4); ("f", 6)]) None.

Definition retriever (m : EmbeddingModel.t) (store : VectorStore.t) : Retriever.t :=
  Retriever.new (mkRetrieverConfig store m None None).

Definition llm : LLM.t :=
  LLM.mk (mkLLMConfig "gpt-3.5-turbo" "key" None None)
         (Some (mkOpenAI (fun _ _ _ => Ok (mkChatCompletion
            [mkChoice (Some (Some "answer")) "stop"] None)))).

Definition pipeline (m : EmbeddingModel.t) (store : VectorStore.t) : RAGPipeline.t :=
  RAGPipeline.new (mkRAGPipelineConfig store m llm None None None).
End Sample.

(** ** Further code of the same files *)

(** [a || b] on an optional string: [undefined] and the empty string
    are falsy. *)
Definition str_or (a : option string) (b : string) : string :=
  match a with
  | Some s => if nonEmpty s then s else b
  | None => b
  end.

(** [s.split(sep)] for a separator of one character. *)
Fixpoint split (sep : ascii) (s : string) : list string :=
  match s with
  | EmptyString => [EmptyString]
  | String c rest =>
      match split sep rest with
      | [] => [String c EmptyString]
      | word :: words =>
          if Ascii.eqb c sep then EmptyString :: word :: words
          else String c word :: words
      end
  end.

(** *** DataLoader ([src/data-loader.ts]) *)

Inductive DataSourceType : Type :=
| FileSource
| WebUrlSource
| DatabaseSource.

Record DataSourceConfig : Type := mkDataSourceConfig {
  source_type : DataSourceType;
  source_path : option string;
  source_url : option string;
  connectionString : option string
}.

Module DataLoader.
Record t : Type := mk {
  config : DataSourceConfig
}.

(** [this.config.path || this.config.url || 'unknown']. *)
Definition source (this : t) : string :=
  str_or (source_path (config this)) (str_or (source_url (config this)) "unknown").

(** [loadAndChunk()]: two new placeholder documents. *)
Definition loadAndChunk (this : t) : M (list loc) :=
  (doc1 <- alloc (RagDocument.mk "doc1"
                    "This is the first chunk of data from the source."
                    (Some [("source", source this)]) None None) ;;
   doc2 <- alloc (RagDocument.mk "doc2"
                    "This is the second chunk of data, processed and ready."
                    (Some [("source", source this)]) None None) ;;
   ret [doc1; doc2])%js.
End DataLoader.

(** [RAGPipeline.ingestData()]; [dataLoader] is the optional field of
    that name of the pipeline. The documents go to the store that the
    pipeline and its retriever share, as in [RAGPipeline.addDocuments]. *)
Definition ingestData (dataLoader : option DataLoader.t) (this : RAGPipeline.t)
  : M RAGPipeline.t :=
  match dataLoader with
  | None => ret this
  | Some loader =>
      (documents <- DataLoader.loadAndChunk loader ;;
       RAGPipeline.addDocuments this documents)%js
  end.

(** *** Streaming ([LLM.generateStream], [RAGPipeline.queryStream]) *)

(** A chunk of a streamed completion, read through
    [chunk.choices[0]?.delta?.content]. *)
Record StreamChunk : Type := mkStreamChunk {
  delta_content : option string
}.

(** [chat.completions.create] with [stream: true]: the call is
    rejected, or it gives chunks and then ends, normally or with an
    error. *)
Record OpenAIStreaming : Type := mkOpenAIStreaming {
  stream_answer :
    list Event -> LLMConfig -> string -> Result (list StreamChunk * option JsError)
}.

(** An async generator of strings, as seen by a consumer that reads it
    to its end: the strings yielded, and the error that ended it if
    there is one. *)
Definition Generator : Type := World -> (list string * option JsError) * World.

(** [LLM.generateStream(prompt)]; [streaming] is the streaming side of
    the client [openaiClient]. The pauses of the dummy branch are not
    modelled. *)
Definition generateStream (streaming : OpenAIStreaming) (this : LLM.t) (prompt : string)
  : Generator :=
  match LLM.openaiClient this with
  | Some _ =>
      fun w =>
        let w' := after w (ChatCompletionsCall (modelName (LLM.config this)) prompt) in
        match stream_answer streaming (trace w) (LLM.config this) prompt with
        | Ok (chunks, failure) =>
            ((map (fun chunk =>
                     match delta_content chunk with
                     | Some s => s
                     | None => EmptyString
                     end) chunks,
              failure), w')
        | Throw e => (([], Some e), w')
        end
  | None =>
      fun w =>
        let dummyResponse :=
          ("Dummy streamed response for " ++ modelName (LLM.config this)
             ++ ". Query: " ++ substring 0 20 prompt ++ "...")%string in
        let words := split " " dummyResponse in
        ((map (fun word => (word ++ " ")%string) words, None), w)
  end.

(** [RAGPipeline.queryStream(query)]. *)
Definition queryStream (streaming : OpenAIStreaming) (this : RAGPipeline.t) (query : string)
  : Generator :=
  fun w =>
    match Retriever.retrieve (RAGPipeline.retriever this) query w with
    | (Throw e, w1) => (([], Some e), w1)
    | (Ok relevantDocuments, w1) =>
        if List.length relevantDocuments =? 0
        then (([noContextText], None), w1)
        else
          let context := Retriever.formatContext (heap w1) relevantDocuments in
          let fullPrompt := RAGPipeline.promptTemplate this context query in
          generateStream streaming (RAGPipeline.llm this) fullPrompt w1
    end.

(** *** Notions used in the further statements *)

(** The backend that the configuration names is there. *)
Definition initialized (this : VectorStore.t) : Prop :=
  match VectorStore.config this with
  | InMemoryStoreConfig => VectorStore.inMemoryStore this <> None
  | AstraDBStoreConfig _ _ _ _ _ => VectorStore.astraCollection this <> None
  end.

(** The records that [addDocuments] sends to Astra DB: one per
    document that carries an embedding, in input order. *)
Definition astraRecords (h : Heap) (documents : list loc) : list AstraDocument :=
  map (fun doc => VectorStore.toAstraDocument (h doc))
      (filter (fun doc => isSome (RagDocument.embedding (h doc))) documents).

(** A response of the generator, with the documents it was given. *)
Definition withSources (response : LLMResponse) (documents : list loc) : LLMResponse :=
  mkLLMResponse (response_text response) (Some documents) (response_metadata response).

(** The provider, if [addDocuments] has to call it in [w], answers with
    at least one vector per text. *)
Definition answersEveryText (this : VectorStore.t) (w : World) (documents : list loc)
  : Prop :=
  match docsToEmbed w documents with
  | [] => True
  | _ :: _ =>
      exists embeddings,
        batchAnswer this w documents = Ok embeddings
        /\ List.length (docsToEmbed w documents) <= List.length embeddings
  end.

(** *** More sample objects *)

Module Demo.
(** A collection that accepts every insertion and always finds one
    record, scored 0.9. *)
Definition collection : AstraCollection.t :=
  AstraCollection.mk "docs"
    (fun _ docs => Ok (mkInsertManyResult (Fin 1) (map _id docs)))
    (fun _ _ _ =>
       Ok [mkAstraDocument "x" "chi" (Some (map Fin Sample.e1)) None (Some (Fin (9 # 10)))]).

(** A collection that is out of reach. *)
Definition failingCollection : AstraCollection.t :=
  AstraCollection.mk "docs"
    (fun _ _ => Throw "503 Service Unavailable")
    (fun _ _ _ => Throw "503 Service Unavailable").

Definition astraConfig : VectorStoreConfig :=
  AstraDBStoreConfig "token" "endpoint" "docs" "keyspace" (Fin 2).

Definition astraStore (c : AstraCollection.t) : VectorStore.t :=
  VectorStore.mk astraConfig Sample.model None (Some c).

Definition connect (token endpoint keyspace name : string) : Result AstraCollection.t :=
  if nonEmpty token then Ok collection else Throw "missing token".

Definition random (history : list Event) (i j : nat) : number := Fin (1 # 2).

(** An in-memory store that holds the two embedded documents. *)
Definition plainStore : VectorStore.t :=
  VectorStore.mk InMemoryStoreConfig Sample.model (Some [("a", 0); ("b", 1)]) None.

Definition streaming : OpenAIStreaming :=
  mkOpenAIStreaming
    (fun _ _ _ => Ok ([mkStreamChunk (Some "ans"); mkStreamChunk None;
                       mkStreamChunk (Some "wer")], None)).

Definition loader : DataLoader.t :=
  DataLoader.mk (mkDataSourceConfig FileSource (Some "") (Some "https://example.com") None).
End Demo.

(** * Properties *)

(** ** Numbers *)


Lemma truthy_Fin_zero (q : Q) : (q == 0)%Q -> truthy (Fin q) = false.
Proof.
  intros H. simpl. apply (proj2 (Qeq_bool_iff q 0)) in H. now rewrite H.
Qed.

Lemma truthy_Fin_nonzero (q : Q) : ~ (q == 0)%Q -> truthy (Fin q) = true.
Proof.
  intros H. simpl. destruct (Qeq_bool q 0) eqn:E; [|reflexivity].
  apply Qeq_bool_eq in E. contradiction.
Qed.

Lemma or_default_zero (q : Q) (d : number) :
  (q == 0)%Q -> or_default (Some (Fin q)) d = d.
Proof. intros H. unfold or_default. now rewrite truthy_Fin_zero. Qed.

Lemma or_default_nonzero (q : Q) (d : number) :
  ~ (q == 0)%Q -> or_default (Some (Fin q)) d = Fin q.
Proof. intros H. unfold or_default. now rewrite truthy_Fin_nonzero. Qed.

(** ** Strings and [join] *)

Lemma string_length_app (s1 s2 : string) :
  String.length (s1 ++ s2) = String.length s1 + String.length s2.
Proof. induction s1 as [|c s1 IH]; simpl; [reflexivity | now rewrite IH]. Qed.

Lemma string_app_assoc (s1 s2 s3 : string) :
  ((s1 ++ s2) ++ s3 = s1 ++ (s2 ++ s3))%string.
Proof. induction s1 as [|c s1 IH]; simpl; [reflexivity | now rewrite IH]. Qed.

Lemma string_app_nil_r (s : string) : (s ++ "" = s)%string.
Proof. induction s as [|c s IH]; simpl; [reflexivity | now rewrite IH]. Qed.

Section JoinLoop.
Variable separator : string.

(** Invariant of the loop once the first element is in [R]. *)
Lemma join_loop_started (arr : list string) :
  forall (R : string) (k : nat),
    0 < k ->
    fst (fold_left (joinStep separator) arr (R, k)) = (R ++ joinTail arr separator)%string.
Proof.
  induction arr as [|element rest IH]; intros R k Hk; simpl.
  - now rewrite string_app_nil_r.
  - destruct (Nat.ltb_spec 0 k) as [_|Hle]; [|lia].
    rewrite IH by lia.
    now rewrite !string_app_assoc.
Qed.

Lemma join_cons (element : string) (rest : list string) :
  join (element :: rest) separator = (element ++ joinTail rest separator)%string.
Proof.
  unfold join. simpl.
  exact (join_loop_started rest element 1 Nat.lt_0_1).
Qed.

Lemma joinTail_concat (element : string) (rest : list string) :
  (element ++ joinTail rest separator)%string = String.concat separator (element :: rest).
Proof.
  revert element. induction rest as [|x rest IH]; intros element.
  - simpl. apply string_app_nil_r.
  - change (String.concat separator (element :: x :: rest))
      with (element ++ separator ++ String.concat separator (x :: rest))%string.
    rewrite <- IH. reflexivity.
Qed.

Lemma join_concat (arr : list string) :
  join arr separator = String.concat separator arr.
Proof.
  destruct arr as [|element rest]; [reflexivity|].
  rewrite join_cons. apply joinTail_concat.
Qed.

Lemma joinTail_length (arr : list string) :
  String.length (joinTail arr separator)
  = list_sum (map String.length arr) + List.length arr * String.length separator.
Proof.
  induction arr as [|element rest IH]; simpl; [reflexivity|].
  rewrite !string_length_app, IH. lia.
Qed.

Lemma join_length (arr : list string) :
  String.length (join arr separator)
  = list_sum (map String.length arr)
    + (List.length arr - 1) * String.length separator.
Proof.
  destruct arr as [|element rest]; [reflexivity|].
  rewrite join_cons, string_length_app, joinTail_length. simpl. lia.
Qed.
End JoinLoop.

(** C7. [Retriever.formatContext] returns the [content] fields of the
    documents, all of them and in order, joined with the separator made
    of two line feeds, three dashes and two line feeds: the result is
    the first content followed, for every later document, by the
    separator and its content; nothing is cut off (the length of the
    result is the sum of the lengths of the contents plus seven
    characters per separator) and no content is dropped, repeated
    contents included; and the empty sequence gives the empty string. *)
Theorem formatContext_joins_contents (h : Heap) (documents : list loc) :
  let contents := map (fun doc => RagDocument.content (h doc)) documents in
  list_ascii_of_string Retriever.separator = map ascii_of_nat [10; 10; 45; 45; 45; 10; 10]
  /\ Retriever.formatContext h [] = EmptyString
  /\ Retriever.formatContext h documents = String.concat Retriever.separator contents
  /\ (forall doc rest,
         Retriever.formatContext h (doc :: rest)
         = (RagDocument.content (h doc)
              ++ joinTail (map (fun doc => RagDocument.content (h doc)) rest)
                          Retriever.separator)%string)
  /\ String.length (Retriever.formatContext h documents)
     = list_sum (map String.length contents) + (List.length documents - 1) * 7.
Proof.
  intros contents. unfold Retriever.formatContext.
  split; [reflexivity|]. split; [reflexivity|].
  split; [apply join_concat|].
  split; [intros doc rest; simpl; apply join_cons|].
  fold contents. rewrite join_length. unfold contents. rewrite length_map.
  reflexivity.
Qed.

(** ** Construction of the retriever *)

(** C8. A [topK] or a [similarityThreshold] equal to 0 is replaced by
    the default, 5 and 0.7, by the constructor of [Retriever] and by
    the one of [RAGPipeline], so that a threshold of 0 cannot be
    configured; every other finite value, in particular every
    threshold in (0, 1] and every [topK >= 1], is used as configured. *)
Theorem zero_tunables_replaced_by_defaults
  (store : VectorStore.t) (model : EmbeddingModel.t) (llm : LLM.t)
  (template : option (string -> string -> string))
  (topK similarityThreshold : option number) :
  let r := Retriever.new (mkRetrieverConfig store model topK similarityThreshold) in
  let p := RAGPipeline.retriever
             (RAGPipeline.new
                (mkRAGPipelineConfig store model llm topK similarityThreshold template)) in
  (forall q, topK = Some (Fin q) -> (q == 0)%Q ->
     Retriever.topK r = Fin 5 /\ Retriever.topK p = Fin 5)
  /\ (forall q, similarityThreshold = Some (Fin q) -> (q == 0)%Q ->
        Retriever.similarityThreshold r = Fin (7 # 10)
        /\ Retriever.similarityThreshold p = Fin (7 # 10))
  /\ (forall q, topK = Some (Fin q) -> ~ (q == 0)%Q ->
        Retriever.topK r = Fin q /\ Retriever.topK p = Fin q)
  /\ (forall q, similarityThreshold = Some (Fin q) -> ~ (q == 0)%Q ->
        Retriever.similarityThreshold r = Fin q
        /\ Retriever.similarityThreshold p = Fin q).
Proof.
  cbv zeta.
  unfold RAGPipeline.new, Retriever.new, defaultTopK, defaultSimilarityThreshold.
  cbn [RAGPipeline.retriever Retriever.topK Retriever.similarityThreshold
       cfg_topK cfg_similarityThreshold pcfg_retrieverTopK
       pcfg_retrieverSimilarityThreshold].
  repeat split; subst.
  all: rewrite ?or_default_zero, ?or_default_nonzero by assumption.
  all: try reflexivity.
  all: apply or_default_nonzero; try assumption; discriminate.
Qed.

(** A threshold of 0 and a [topK] of 0 give 0.7 and 5; a threshold of
    1/4 and a [topK] of 3 are kept. *)
Lemma zero_tunables_replaced_by_defaults_witness :
  (Retriever.topK (Sample.retriever Sample.model Sample.emptyStore) = Fin 5)
  /\ (Retriever.topK
        (Retriever.new
           (mkRetrieverConfig Sample.emptyStore Sample.model
              (Some (Fin 0)) (Some (Fin 0)))) = Fin 5
      /\ Retriever.topK
           (RAGPipeline.retriever
              (RAGPipeline.new
                 (mkRAGPipelineConfig Sample.emptyStore Sample.model Sample.llm
                    (Some (Fin 0)) (Some (Fin 0)) None))) = Fin 5)
  /\ (Retriever.similarityThreshold
        (Retriever.new
           (mkRetrieverConfig Sample.emptyStore Sample.model
              (Some (Fin 3)) (Some (Fin (1 # 4))))) = Fin (1 # 4)
      /\ Retriever.similarityThreshold
           (RAGPipeline.retriever
              (RAGPipeline.new
                 (mkRAGPipelineConfig Sample.emptyStore Sample.model Sample.llm
                    (Some (Fin 3)) (Some (Fin (1 # 4))) None))) = Fin (1 # 4)).
Proof.
  split; [reflexivity|]. split.
  - apply (zero_tunables_replaced_by_defaults
             Sample.emptyStore Sample.model Sample.llm None
             (Some (Fin 0)) (Some (Fin 0))) with (q := 0%Q);
      reflexivity.
  - apply (zero_tunables_replaced_by_defaults
             Sample.emptyStore Sample.model Sample.llm None
             (Some (Fin 3)) (Some (Fin (1 # 4)))) with (q := (1 # 4)%Q);
      [reflexivity | discriminate].
Defined.

(** ** The monad *)

Lemma world_eta (w : World) : mkWorld (heap w) (nextLoc w) (trace w) = w.
Proof. now destruct w. Qed.

Lemma embeddingCalls_app (l1 l2 : list Event) :
  embeddingCalls (l1 ++ l2) = embeddingCalls l1 ++ embeddingCalls l2.
Proof.
  induction l1 as [|ev l1 IH]; simpl; [reflexivity|].
  destruct ev; simpl; now rewrite IH.
Qed.

Lemma generatorCalls_app (l1 l2 : list Event) :
  generatorCalls (l1 ++ l2) = generatorCalls l1 ++ generatorCalls l2.
Proof.
  induction l1 as [|ev l1 IH]; simpl; [reflexivity|].
  destruct ev; simpl; now rewrite IH.
Qed.

Lemma storageCalls_app (l1 l2 : list Event) :
  storageCalls (l1 ++ l2) = storageCalls l1 ++ storageCalls l2.
Proof.
  induction l1 as [|ev l1 IH]; simpl; [reflexivity|].
  destruct ev; simpl; now rewrite IH.
Qed.

(** ** Assignment of the embeddings *)

Lemma upd_same (h : Heap) (l : loc) (d : RagDocument.t) : upd h l d l = d.
Proof. unfold upd. now rewrite Nat.eqb_refl. Qed.

Lemma upd_other (h : Heap) (l l' : loc) (d : RagDocument.t) :
  l' <> l -> upd h l d l' = h l'.
Proof. intros H. unfold upd. now apply Nat.eqb_neq in H; rewrite H. Qed.

Lemma forEach_assign_run (embeddings : list (list number)) (docs : list loc) :
  forall (index : nat) (w : World),
    forEach_from docs index
      (fun doc i => VectorStore.assignEmbedding doc (nth_error embeddings i)) w
    = (Ok tt, mkWorld (assignAll docs index embeddings (heap w)) (nextLoc w) (trace w)).
Proof.
  induction docs as [|doc rest IH]; intros index w; simpl.
  - unfold ret. now rewrite world_eta.
  - unfold bind, VectorStore.assignEmbedding at 1. rewrite IH. reflexivity.
Qed.

Lemma assignAll_untouched (embeddings : list (list number)) (docs : list loc) :
  forall (index : nat) (h : Heap) (l : loc),
    ~ In l docs -> assignAll docs index embeddings h l = h l.
Proof.
  induction docs as [|doc rest IH]; intros index h l Hl; simpl; [reflexivity|].
  rewrite IH by (intros H; apply Hl; now right).
  apply upd_other. intros ->. apply Hl. now left.
Qed.

Lemma assignAll_frame (embeddings : list (list number)) (docs : list loc) :
  forall (index : nat) (h : Heap) (l : loc),
    sameButEmbedding (h l) (assignAll docs index embeddings h l).
Proof.
  induction docs as [|doc rest IH]; intros index h l; simpl.
  - repeat split.
  - destruct (IH (S index)
                (upd h doc (RagDocument.with_embedding (h doc) (nth_error embeddings index)))
                l) as (H1 & H2 & H3 & H4).
    unfold sameButEmbedding. rewrite H1, H2, H3, H4.
    unfold upd. destruct (Nat.eqb_spec l doc) as [->|_]; repeat split.
Qed.

Lemma lastAt_head (doc : loc) (rest : list loc) :
  lastAt (doc :: rest) 0 doc -> ~ In doc rest.
Proof.
  intros [_ Hlast] Hin.
  apply In_nth_error in Hin. destruct Hin as [j Hj].
  apply (Hlast (S j)); [lia | exact Hj].
Qed.

Lemma lastAt_tail (d doc : loc) (rest : list loc) (k : nat) :
  lastAt (d :: rest) (S k) doc -> lastAt rest k doc.
Proof.
  intros [Hnth Hlast]. split; [exact Hnth|].
  intros j Hj. apply (Hlast (S j)). lia.
Qed.

Lemma assignAll_last (embeddings : list (list number)) (docs : list loc) :
  forall (index : nat) (h : Heap) (k : nat) (l : loc),
    lastAt docs k l ->
    assignAll docs index embeddings h l
    = RagDocument.with_embedding (h l) (nth_error embeddings (index + k)).
Proof.
  induction docs as [|doc rest IH]; intros index h k l Hlast.
  - destruct Hlast as [Hnth _]. destruct k; discriminate.
  - simpl. destruct k as [|k].
    + assert (l = doc) as -> by (destruct Hlast as [Hnth _]; simpl in Hnth; congruence).
      rewrite assignAll_untouched by (now apply lastAt_head).
      rewrite upd_same, Nat.add_0_r. reflexivity.
    + rewrite (IH (S index) _ k l) by (eapply lastAt_tail; eassumption).
      replace (S index + k) with (index + S k) by lia.
      unfold upd. destruct (Nat.eqb_spec l doc) as [->|_]; reflexivity.
Qed.

(** ** Runs of [addDocuments] *)

(** The three ways the embedding step can go. *)
Lemma embedMissing_run (this : VectorStore.t) (documents : list loc) (w : World) :
  VectorStore.embedMissing this documents w
  = match docsToEmbed w documents with
    | [] => (Ok tt, w)
    | _ :: _ =>
        match batchAnswer this w documents with
        | Ok embeddings =>
            (Ok tt, mkWorld (assignAll (docsToEmbed w documents) 0 embeddings (heap w))
                            (nextLoc w) (trace w ++ [batchCall this w documents]))
        | Throw e => (Throw e, after w (batchCall this w documents))
        end
    end.
Proof.
  unfold VectorStore.embedMissing, bind, get_heap.
  unfold batchAnswer, batchCall, batchContents.
  fold (docsToEmbed w documents).
  destruct (docsToEmbed w documents) as [|d rest]; [reflexivity|].
  cbn [List.length Nat.ltb Nat.leb].
  unfold EmbeddingModel.generateEmbeddings, external.
  match goal with |- context [EmbeddingModel.respond ?m ?h ?c] =>
    destruct (EmbeddingModel.respond m h c) as [embeddings|e] end; [|reflexivity].
  unfold forEach. rewrite forEach_assign_run. reflexivity.
Qed.

(** The storing step leaves the documents alone and embeds nothing. *)
Lemma storeDocuments_frame (this : VectorStore.t) (documents : list loc) (w : World) :
  let w' := snd (VectorStore.storeDocuments this documents w) in
  heap w' = heap w
  /\ nextLoc w' = nextLoc w
  /\ embeddingCalls (trace w') = embeddingCalls (trace w).
Proof.
  unfold VectorStore.storeDocuments, bind, get_heap.
  destruct (VectorStore.config this).
  - destruct (VectorStore.inMemoryStore this); simpl; auto.
  - destruct (VectorStore.astraCollection this) as [collection|]; simpl; auto.
    match goal with |- context [if ?b then _ else _] => destruct b end; simpl; auto.
    unfold bind, AstraCollection.insertMany, external.
    match goal with |- context [AstraCollection.insertMany_answer ?c ?h ?d] =>
      destruct (AstraCollection.insertMany_answer c h d) end; simpl;
      rewrite embeddingCalls_app; simpl; rewrite app_nil_r; auto.
Qed.

Lemma addDocuments_run (this : VectorStore.t) (documents : list loc) (w : World) :
  VectorStore.addDocuments this documents w
  = match documents with
    | [] => (Ok this, w)
    | _ :: _ =>
        match docsToEmbed w documents with
        | [] => VectorStore.storeDocuments this documents w
        | _ :: _ =>
            match batchAnswer this w documents with
            | Ok embeddings =>
                VectorStore.storeDocuments this documents
                  (mkWorld (assignAll (docsToEmbed w documents) 0 embeddings (heap w))
                           (nextLoc w) (trace w ++ [batchCall this w documents]))
            | Throw e => (Throw e, after w (batchCall this w documents))
            end
        end
    end.
Proof.
  unfold VectorStore.addDocuments.
  destruct documents as [|d rest] eqn:E; [reflexivity|].
  cbn [List.length Nat.eqb]. rewrite <- E.
  unfold bind at 1. rewrite embedMissing_run.
  destruct (docsToEmbed w documents); [reflexivity|].
  destruct (batchAnswer this w documents); reflexivity.
Qed.

(** The heap and the embedding calls after [addDocuments], whatever
    the outcome of the storing step. *)
Lemma addDocuments_effects (this : VectorStore.t) (documents : list loc) (w : World) :
  let w' := snd (VectorStore.addDocuments this documents w) in
  nextLoc w' = nextLoc w
  /\ match docsToEmbed w documents with
     | [] => heap w' = heap w /\ embeddingCalls (trace w') = embeddingCalls (trace w)
     | _ :: _ =>
         embeddingCalls (trace w')
         = embeddingCalls (trace w) ++ [batchContents w documents]
         /\ match batchAnswer this w documents with
            | Ok embeddings =>
                heap w' = assignAll (docsToEmbed w documents) 0 embeddings (heap w)
            | Throw _ => heap w' = heap w
            end
     end.
Proof.
  cbv zeta. rewrite addDocuments_run.
  destruct documents as [|d rest] eqn:E; [simpl; auto|].
  rewrite <- E.
  destruct (docsToEmbed w documents) as [|d' rest'].
  - destruct (storeDocuments_frame this documents w) as (H1 & H2 & H3). auto.
  - destruct (batchAnswer this w documents) as [embeddings|e].
    + match goal with |- context [VectorStore.storeDocuments this documents ?w0] =>
        destruct (storeDocuments_frame this documents w0) as (H1 & H2 & H3) end.
      cbn [heap nextLoc trace] in H1, H2, H3. rewrite H1, H2, H3.
      rewrite embeddingCalls_app. auto.
    + cbn [snd after heap nextLoc trace]. rewrite embeddingCalls_app. auto.
Qed.

Lemma needsEmbedding_spec (h : Heap) (doc : loc) :
  VectorStore.needsEmbedding h doc = true
  <-> RagDocument.embedding (h doc) = None
      /\ RagDocument.content (h doc) <> EmptyString.
Proof.
  unfold VectorStore.needsEmbedding.
  destruct (RagDocument.embedding (h doc)) as [e|],
           (RagDocument.content (h doc)) as [|c s];
    simpl; split; intros H;
    try discriminate;
    try (destruct H; congruence);
    try (split; [reflexivity | discriminate]);
    reflexivity.
Qed.

(** C5. One call of [VectorStore.addDocuments] calls
    [generateEmbeddings] at most once: not at all when no document
    lacks an embedding while having content, and otherwise exactly
    once, with the contents of all those documents in input order; the
    vector at position [index] of the answer is then assigned to the
    document at position [index] of that batch (for an object that is
    passed several times, the assignment made last stays). This holds
    whether the call resolves or rejects. *)
Theorem addDocuments_embeds_in_one_batch
  (this : VectorStore.t) (documents : list loc) (w : World) :
  let w' := snd (VectorStore.addDocuments this documents w) in
  (forall doc,
      In doc (docsToEmbed w documents)
      <-> In doc documents
          /\ RagDocument.embedding (heap w doc) = None
          /\ RagDocument.content (heap w doc) <> EmptyString)
  /\ embeddingCalls (trace w')
     = embeddingCalls (trace w)
       ++ match docsToEmbed w documents with
          | [] => []
          | _ :: _ => [batchContents w documents]
          end
  /\ (forall embeddings index doc,
         batchAnswer this w documents = Ok embeddings ->
         lastAt (docsToEmbed w documents) index doc ->
         RagDocument.embedding (heap w' doc) = nth_error embeddings index).
Proof.
  cbv zeta. split; [|split].
  - intros doc. unfold docsToEmbed. rewrite filter_In, needsEmbedding_spec. tauto.
  - destruct (addDocuments_effects this documents w) as [_ H].
    destruct (docsToEmbed w documents).
    + rewrite app_nil_r. apply H.
    + apply H.
  - intros embeddings index doc Hanswer Hlast.
    destruct (addDocuments_effects this documents w) as [_ H].
    destruct (docsToEmbed w documents) as [|d rest] eqn:E.
    + destruct Hlast as [Hnth _]. destruct index; discriminate.
    + destruct H as [_ H]. rewrite Hanswer in H. rewrite H.
      rewrite (assignAll_last embeddings (d :: rest) 0 (heap w) index doc Hlast).
      reflexivity.
Qed.

(** Of four documents only the third lacks an embedding and has
    content: one call with its content, and its vector is set. *)
Lemma addDocuments_embeds_in_one_batch_witness :
  embeddingCalls
    (trace (snd (VectorStore.addDocuments Sample.emptyStore [0; 1; 2; 3] Sample.world)))
  = [["alpha, revised"]]
  /\ RagDocument.embedding
       (heap (snd (VectorStore.addDocuments Sample.emptyStore [0; 1; 2; 3] Sample.world)) 2)
     = Some (map Fin Sample.e2).
Proof.
  split.
  - exact (proj1 (proj2 (addDocuments_embeds_in_one_batch
                           Sample.emptyStore [0; 1; 2; 3] Sample.world))).
  - apply (proj2 (proj2 (addDocuments_embeds_in_one_batch
                           Sample.emptyStore [0; 1; 2; 3] Sample.world))
             [map Fin Sample.e2] 0 2).
    + reflexivity.
    + split; [reflexivity|].
      intros [|[|j]] Hj; [lia | discriminate | discriminate].
Defined.

(** C9. [VectorStore.addDocuments] works on the objects it is given:
    it creates no document object; a document that lacked an embedding
    and has content gets the generated vector in its own [embedding]
    field; [id], [content], [metadata] and [similarity] of every
    document are left as they were, and a document outside the batch
    is left untouched altogether. *)
Theorem addDocuments_assigns_in_place
  (this : VectorStore.t) (documents : list loc) (w : World) :
  let w' := snd (VectorStore.addDocuments this documents w) in
  nextLoc w' = nextLoc w
  /\ (forall doc,
        In doc (docsToEmbed w documents)
        <-> In doc documents
            /\ RagDocument.embedding (heap w doc) = None
            /\ RagDocument.content (heap w doc) <> EmptyString)
  /\ (forall doc, sameButEmbedding (heap w doc) (heap w' doc))
  /\ (forall doc, ~ In doc (docsToEmbed w documents) -> heap w' doc = heap w doc)
  /\ (forall embeddings index doc,
         batchAnswer this w documents = Ok embeddings ->
         lastAt (docsToEmbed w documents) index doc ->
         heap w' doc
         = RagDocument.with_embedding (heap w doc) (nth_error embeddings index)).
Proof.
  cbv zeta.
  destruct (addDocuments_effects this documents w) as [Hnext H].
  split; [exact Hnext|].
  split; [intros doc; unfold docsToEmbed;
          rewrite filter_In, needsEmbedding_spec; tauto|].
  destruct (docsToEmbed w documents) as [|d rest] eqn:E.
  - destruct H as [H _]. rewrite H. split; [|split].
    + intros doc. repeat split.
    + reflexivity.
    + intros embeddings index doc _ [Hnth _]. destruct index; discriminate.
  - destruct H as [_ H].
    destruct (batchAnswer this w documents) as [embeddings|e]; rewrite H.
    + split; [|split].
      * intros doc. apply assignAll_frame.
      * intros doc Hdoc. now apply assignAll_untouched.
      * intros embeddings' index doc Heq Hlast.
        injection Heq as <-.
        exact (assignAll_last embeddings (d :: rest) 0 (heap w) index doc Hlast).
    + split; [|split].
      * intros doc. repeat split.
      * reflexivity.
      * discriminate.
Qed.

(** The third document of the heap is given its vector where it is,
    and the first one is not touched. *)
Lemma addDocuments_assigns_in_place_witness :
  heap (snd (VectorStore.addDocuments Sample.emptyStore [0; 1; 2; 3] Sample.world)) 2
  = RagDocument.mk "a" "alpha, revised" None (Some (map Fin Sample.e2)) None
  /\ heap (snd (VectorStore.addDocuments Sample.emptyStore [0; 1; 2; 3] Sample.world)) 0
     = Sample.documents 0.
Proof.
  pose proof (addDocuments_assigns_in_place
                Sample.emptyStore [0; 1; 2; 3] Sample.world) as H.
  cbv zeta in H. destruct H as (_ & _ & _ & Hout & Hin).
  split.
  - apply (Hin [map Fin Sample.e2] 0 2).
    + reflexivity.
    + split; [reflexivity|].
      intros [|[|j]] Hj; [lia | discriminate | discriminate].
  - apply Hout. intros [H|[]]. discriminate.
Defined.

(** C10. [VectorStore.addDocuments] called with no document resolves
    at once: the store, the documents and the history of external calls
    are what they were, so that neither the embedding provider nor a
    storage backend has been called. *)
Theorem addDocuments_empty_is_noop (this : VectorStore.t) (w : World) :
  VectorStore.addDocuments this [] w = (Ok this, w)
  /\ embeddingCalls (trace (snd (VectorStore.addDocuments this [] w)))
     = embeddingCalls (trace w)
  /\ storageCalls (trace (snd (VectorStore.addDocuments this [] w)))
     = storageCalls (trace w).
Proof. repeat split. Qed.

(** ** The in-memory [Map] *)

Lemma JsMap_get_set_same {V : Type} (k : string) (v : V) (m : JsMap.t V) :
  JsMap.get k (JsMap.set k v m) = Some v.
Proof.
  induction m as [|[k' v'] rest IH]; simpl.
  - now rewrite String.eqb_refl.
  - destruct (String.eqb k' k) eqn:E; simpl.
    + now rewrite String.eqb_refl.
    + now rewrite E.
Qed.

Lemma JsMap_get_set_other {V : Type} (k k0 : string) (v : V) (m : JsMap.t V) :
  k0 <> k -> JsMap.get k0 (JsMap.set k v m) = JsMap.get k0 m.
Proof.
  intros Hneq. induction m as [|[k' v'] rest IH]; simpl.
  - destruct (String.eqb_spec k k0); [congruence | reflexivity].
  - destruct (String.eqb_spec k' k) as [->|Hk]; simpl.
    + destruct (String.eqb_spec k k0); [congruence | reflexivity].
    + destruct (String.eqb_spec k' k0); [reflexivity | exact IH].
Qed.

Lemma JsMap_keys_set {V : Type} (k k0 : string) (v : V) (m : JsMap.t V) :
  In k0 (JsMap.keys (JsMap.set k v m)) -> k0 = k \/ In k0 (JsMap.keys m).
Proof.
  induction m as [|[k' v'] rest IH]; simpl.
  - intros [H|[]]; auto.
  - destruct (String.eqb_spec k' k) as [->|Hk]; simpl.
    + intros [H|H]; auto.
    + intros [H|H]; auto. destruct (IH H); auto.
Qed.

Lemma JsMap_set_NoDup {V : Type} (k : string) (v : V) (m : JsMap.t V) :
  NoDup (JsMap.keys m) -> NoDup (JsMap.keys (JsMap.set k v m)).
Proof.
  induction m as [|[k' v'] rest IH]; simpl; intros Hnd.
  - constructor; [intros [] | constructor].
  - inversion Hnd as [|x l Hnotin Hrest]; subst.
    destruct (String.eqb_spec k' k) as [->|Hk]; simpl.
    + now constructor.
    + constructor; [|now apply IH].
      intros Hin. apply JsMap_keys_set in Hin. destruct Hin; [congruence | contradiction].
Qed.

Lemma JsMap_entries_for_absent {V : Type} (k : string) (m : JsMap.t V) :
  ~ In k (JsMap.keys m) -> JsMap.entries_for k m = [].
Proof.
  induction m as [|[k' v'] rest IH]; simpl; intros Hnotin; [reflexivity|].
  destruct (String.eqb_spec k' k) as [->|Hk].
  - exfalso. apply Hnotin. now left.
  - apply IH. intros H. apply Hnotin. now right.
Qed.

(** In a [Map] a key that is present has exactly one entry. *)
Lemma JsMap_entries_for_unique {V : Type} (k : string) (v : V) (m : JsMap.t V) :
  NoDup (JsMap.keys m) -> JsMap.get k m = Some v -> JsMap.entries_for k m = [(k, v)].
Proof.
  induction m as [|[k' v'] rest IH]; simpl; intros Hnd Hget; [discriminate|].
  inversion Hnd as [|x l Hnotin Hrest]; subst.
  destruct (String.eqb_spec k' k) as [->|Hk].
  - injection Hget as ->. now rewrite JsMap_entries_for_absent.
  - now apply IH.
Qed.

Lemma storeAll_NoDup (h : Heap) (docs : list loc) :
  forall store, NoDup (JsMap.keys store) -> NoDup (JsMap.keys (VectorStore.storeAll h docs store)).
Proof.
  unfold VectorStore.storeAll.
  induction docs as [|doc rest IH]; intros store Hnd; simpl; [exact Hnd|].
  apply IH. destruct (isSome (RagDocument.embedding (h doc))); [|exact Hnd].
  now apply JsMap_set_NoDup.
Qed.

Lemma storeAll_untouched (h : Heap) (k : string) (docs : list loc) :
  forall store,
    (forall d, In d docs -> RagDocument.embedding (h d) <> None -> RagDocument.id (h d) <> k) ->
    JsMap.get k (VectorStore.storeAll h docs store) = JsMap.get k store.
Proof.
  unfold VectorStore.storeAll.
  induction docs as [|doc rest IH]; intros store Hnone; simpl; [reflexivity|].
  rewrite IH by (intros d Hd; apply Hnone; now right).
  destruct (RagDocument.embedding (h doc)) as [e|] eqn:E; simpl; [|reflexivity].
  apply JsMap_get_set_other. intros Heq. symmetry in Heq. revert Heq.
  apply Hnone; [now left | rewrite E; discriminate].
Qed.

Lemma storeAll_last (h : Heap) (docs : list loc) :
  forall store index doc,
    lastStored h docs index doc ->
    JsMap.get (RagDocument.id (h doc)) (VectorStore.storeAll h docs store) = Some doc.
Proof.
  induction docs as [|d rest IH]; intros store index doc (Hnth & Hemb & Hlast).
  - destruct index; discriminate.
  - destruct index as [|index].
    + simpl in Hnth. injection Hnth as ->.
      change (VectorStore.storeAll h (doc :: rest) store)
        with (VectorStore.storeAll h rest
                (if isSome (RagDocument.embedding (h doc))
                 then JsMap.set (RagDocument.id (h doc)) doc store else store)).
      rewrite storeAll_untouched.
      * destruct (RagDocument.embedding (h doc)); [|congruence].
        apply JsMap_get_set_same.
      * intros d' Hin Hemb'. apply In_nth_error in Hin. destruct Hin as [j Hj].
        apply (Hlast (S j) d'); [lia | exact Hj | exact Hemb'].
    + change (VectorStore.storeAll h (d :: rest) store)
        with (VectorStore.storeAll h rest
                (if isSome (RagDocument.embedding (h d))
                 then JsMap.set (RagDocument.id (h d)) d store else store)).
      apply (IH _ index doc). split; [exact Hnth|]. split; [exact Hemb|].
      intros j d' Hj. apply (Hlast (S j) d'). lia.
Qed.

(** The storing step on the in-memory backend. *)
Lemma storeDocuments_inMemory
  (this : VectorStore.t) (store : JsMap.t loc) (documents : list loc) (w : World) :
  VectorStore.config this = InMemoryStoreConfig ->
  VectorStore.inMemoryStore this = Some store ->
  VectorStore.storeDocuments this documents w
  = (Ok (VectorStore.mk InMemoryStoreConfig (VectorStore.embeddingModel this)
           (Some (VectorStore.storeAll (heap w) documents store))
           (VectorStore.astraCollection this)), w).
Proof.
  intros Hc Hs. unfold VectorStore.storeDocuments, bind, get_heap.
  now rewrite Hc, Hs.
Qed.

Lemma addDocuments_inMemory
  (this this' : VectorStore.t) (store : JsMap.t loc) (documents : list loc) (w w' : World) :
  VectorStore.config this = InMemoryStoreConfig ->
  VectorStore.inMemoryStore this = Some store ->
  VectorStore.addDocuments this documents w = (Ok this', w') ->
  VectorStore.config this' = InMemoryStoreConfig
  /\ VectorStore.inMemoryStore this'
     = Some (VectorStore.storeAll (heap w') documents store).
Proof.
  intros Hc Hs. rewrite addDocuments_run.
  destruct documents as [|d rest] eqn:E.
  - intros H. injection H as <- <-. auto.
  - rewrite <- E.
    destruct (docsToEmbed w documents).
    + rewrite (storeDocuments_inMemory this store) by assumption.
      intros H. injection H as <- <-. auto.
    + destruct (batchAnswer this w documents); [|discriminate].
      rewrite (storeDocuments_inMemory this store) by assumption.
      intros H. injection H as <- <-. auto.
Qed.

Lemma addDocuments_keeps_fields (this : VectorStore.t) (documents : list loc) (w : World) :
  forall doc,
    sameButEmbedding (heap w doc) (heap (snd (VectorStore.addDocuments this documents w)) doc).
Proof.
  intros doc.
  destruct (addDocuments_effects this documents w) as [_ H].
  destruct (docsToEmbed w documents) as [|d rest].
  - destruct H as [H _]. rewrite H. repeat split.
  - destruct H as [_ H].
    destruct (batchAnswer this w documents); rewrite H.
    + apply assignAll_frame.
    + repeat split.
Qed.

(** C6. On the in-memory backend [addDocuments] is an upsert keyed by
    the document id. When a first call stores a document under an id
    and a second call stores a document with the same id, the store
    holds, after each call, exactly one entry for that id; after the
    second call this entry is the document of the second call, with
    the content its caller gave it. Within one call the document that
    comes last among those with that id is the one that stays. *)
Theorem inMemory_addDocuments_upserts_by_id
  (this this1 this2 : VectorStore.t) (store : JsMap.t loc)
  (docs1 docs2 : list loc) (w w1 w2 : World)
  (i1 i2 : nat) (first latest : loc) :
  VectorStore.config this = InMemoryStoreConfig ->
  VectorStore.inMemoryStore this = Some store ->
  NoDup (JsMap.keys store) ->
  VectorStore.addDocuments this docs1 w = (Ok this1, w1) ->
  VectorStore.addDocuments this1 docs2 w1 = (Ok this2, w2) ->
  lastStored (heap w1) docs1 i1 first ->
  lastStored (heap w2) docs2 i2 latest ->
  RagDocument.id (heap w2 latest) = RagDocument.id (heap w1 first) ->
  exists store1 store2,
    VectorStore.inMemoryStore this1 = Some store1
    /\ VectorStore.inMemoryStore this2 = Some store2
    /\ JsMap.entries_for (RagDocument.id (heap w1 first)) store1
       = [(RagDocument.id (heap w1 first), first)]
    /\ JsMap.entries_for (RagDocument.id (heap w1 first)) store2
       = [(RagDocument.id (heap w1 first), latest)]
    /\ RagDocument.content (heap w2 latest) = RagDocument.content (heap w1 latest).
Proof.
  intros Hc Hs Hnd Hrun1 Hrun2 Hfirst Hlatest Hid.
  destruct (addDocuments_inMemory _ _ _ _ _ _ Hc Hs Hrun1) as [Hc1 Hs1].
  destruct (addDocuments_inMemory _ _ _ _ _ _ Hc1 Hs1 Hrun2) as [Hc2 Hs2].
  eexists. eexists.
  split; [exact Hs1|]. split; [exact Hs2|].
  assert (Hnd1 : NoDup (JsMap.keys (VectorStore.storeAll (heap w1) docs1 store)))
    by now apply storeAll_NoDup.
  split; [|split].
  - apply JsMap_entries_for_unique; [exact Hnd1|].
    now apply (storeAll_last (heap w1) docs1 store i1 first).
  - rewrite <- Hid.
    apply JsMap_entries_for_unique; [now apply storeAll_NoDup|].
    now apply (storeAll_last (heap w2) docs2 _ i2 latest).
  - pose proof (addDocuments_keeps_fields this1 docs2 w1 latest) as Hframe.
    rewrite Hrun2 in Hframe. destruct Hframe as (_ & Hcontent & _). exact Hcontent.
Qed.

(** Documents "a" and "b" are stored, then a revision of "a" (embedded
    by the call) and a document without content (skipped): one entry
    for "a", the revision. *)
Lemma inMemory_addDocuments_upserts_by_id_witness :
  VectorStore.addDocuments Sample.emptyStore [0; 1] Sample.world
  = (Ok Sample.store1, Sample.world1)
  /\ VectorStore.addDocuments Sample.store1 [2; 3] Sample.world1
     = (Ok Sample.store2, Sample.world2)
  /\ exists store1 store2,
       VectorStore.inMemoryStore Sample.store1 = Some store1
       /\ VectorStore.inMemoryStore Sample.store2 = Some store2
       /\ JsMap.entries_for "a" store1 = [("a", 0)]
       /\ JsMap.entries_for "a" store2 = [("a", 2)]
       /\ RagDocument.content (heap Sample.world2 2) = "alpha, revised".
Proof.
  split; [reflexivity|]. split; [reflexivity|].
  refine (inMemory_addDocuments_upserts_by_id
            Sample.emptyStore Sample.store1 Sample.store2 JsMap.empty
            [0; 1] [2; 3] Sample.world Sample.world1 Sample.world2 0 0 0 2
            eq_refl eq_refl (NoDup_nil _) eq_refl eq_refl _ _ eq_refl).
  - split; [reflexivity|]. split; [discriminate|].
    intros [|[|[|j]]] d Hj Hnth; try lia; try discriminate.
    injection Hnth as <-. intros _. discriminate.
  - split; [reflexivity|]. split; [discriminate|].
    intros [|[|[|j]]] d Hj Hnth; try lia; try discriminate.
    injection Hnth as <-. intros Hemb. exfalso. apply Hemb. reflexivity.
Defined.

(** ** Runs of [retrieve] *)

Lemma mapM_alloc_trace (f : AstraDocument -> RagDocument.t) (arr : list AstraDocument) :
  forall w, trace (snd (mapM (fun a => alloc (f a)) arr w)) = trace w.
Proof.
  induction arr as [|a rest IH]; intros w; simpl; [reflexivity|].
  unfold bind at 1. unfold alloc at 1.
  unfold bind at 1.
  match goal with |- context [mapM ?g rest ?w0] =>
    specialize (IH w0); destruct (mapM g rest w0) as [[bs|e] w1] end;
    simpl in *; exact IH.
Qed.

(** A similarity search never calls the generator. *)
Lemma similaritySearch_generator_frame
  (this : VectorStore.t) (queryEmbedding : list number) (topK : number) (w : World) :
  generatorCalls (trace (snd (VectorStore.similaritySearch this queryEmbedding topK w)))
  = generatorCalls (trace w).
Proof.
  unfold VectorStore.similaritySearch.
  destruct (VectorStore.config this).
  - destruct (VectorStore.inMemoryStore this); reflexivity.
  - destruct (VectorStore.astraCollection this) as [collection|]; [|reflexivity].
    unfold bind, AstraCollection.find, external.
    destruct (AstraCollection.find_answer collection (trace w) queryEmbedding topK)
      as [astraResults|e]; cbn [snd trace].
    + rewrite mapM_alloc_trace. cbn [trace].
      rewrite generatorCalls_app. simpl. apply app_nil_r.
    + rewrite generatorCalls_app. simpl. apply app_nil_r.
Qed.

(** The ways [retrieve] can go, by the answer of the embedding provider. *)
Lemma retrieve_run (this : Retriever.t) (query : string) (w : World) :
  Retriever.retrieve this query w
  = match EmbeddingModel.respond (Retriever.embeddingModel this) (trace w) [query] with
    | Throw e => (Throw e, after w (queryCall this query))
    | Ok [] => (Ok [], after w (queryCall this query))
    | Ok (queryEmbedding :: _) =>
        match VectorStore.similaritySearch (Retriever.vectorStore this) queryEmbedding
                (Retriever.topK this) (after w (queryCall this query)) with
        | (Ok found, w1) => (Ok (filter (Retriever.isRelevant this (heap w1)) found), w1)
        | (Throw e, w1) => (Throw e, w1)
        end
    end.
Proof.
  unfold Retriever.retrieve, bind, EmbeddingModel.generateEmbeddings, external.
  fold (queryCall this query). fold (after w (queryCall this query)).
  destruct (EmbeddingModel.respond (Retriever.embeddingModel this) (trace w) [query])
    as [[|queryEmbedding others]|e]; reflexivity.
Qed.

(** [retrieve] never calls the generator. *)
Lemma retrieve_generator_frame (this : Retriever.t) (query : string) (w : World) :
  generatorCalls (trace (snd (Retriever.retrieve this query w)))
  = generatorCalls (trace w).
Proof.
  rewrite retrieve_run.
  assert (Hafter : generatorCalls (trace (after w (queryCall this query)))
                   = generatorCalls (trace w)).
  { unfold after. cbn [trace]. rewrite generatorCalls_app. simpl. apply app_nil_r. }
  destruct (EmbeddingModel.respond (Retriever.embeddingModel this) (trace w) [query])
    as [[|queryEmbedding others]|e]; try exact Hafter.
  rewrite <- Hafter.
  rewrite <- (similaritySearch_generator_frame (Retriever.vectorStore this) queryEmbedding
                (Retriever.topK this) (after w (queryCall this query))).
  destruct (VectorStore.similaritySearch (Retriever.vectorStore this) queryEmbedding
              (Retriever.topK this) (after w (queryCall this query))) as [[found|e] w1];
    reflexivity.
Qed.







(** C4 as stated fails: when the embedding call is rejected,
    [Retriever.retrieve] is rejected with the same error and returns no
    sequence at all. *)
Lemma retrieve_rethrows_embedding_failure :
  EmbeddingModel.respond Sample.failingModel (trace Sample.world) ["q"]
  = Throw "429 Too Many Requests"
  /\ fst (Retriever.retrieve (Sample.retriever Sample.failingModel Sample.emptyStore)
            "q" Sample.world)
     = Throw "429 Too Many Requests"
  /\ fst (Retriever.retrieve (Sample.retriever Sample.failingModel Sample.emptyStore)
            "q" Sample.world)
     <> Ok [].
Proof. split; [reflexivity|]. split; [reflexivity | discriminate]. Qed.

(** C4, amended. When the embedding provider answers the query with
    no vector, [Retriever.retrieve] resolves with the empty sequence,
    having made no call but that one (no search takes place); when the
    embedding call is rejected, [retrieve] is rejected with the same
    error. *)
Theorem retrieve_without_query_embedding
  (this : Retriever.t) (query : string) (w : World) :
  (EmbeddingModel.respond (Retriever.embeddingModel this) (trace w) [query] = Ok [] ->
   Retriever.retrieve this query w = (Ok [], after w (queryCall this query)))
  /\ (forall e,
        EmbeddingModel.respond (Retriever.embeddingModel this) (trace w) [query] = Throw e ->
        Retriever.retrieve this query w = (Throw e, after w (queryCall this query))).
Proof.
  split.
  - intros H. now rewrite retrieve_run, H.
  - intros e H. now rewrite retrieve_run, H.
Qed.

(** A provider that answers no vector gives the empty sequence; a
    provider that rejects the call makes [retrieve] reject. *)
Lemma retrieve_without_query_embedding_witness :
  fst (Retriever.retrieve (Sample.retriever Sample.silentModel Sample.scoredStore)
         "q" Sample.world) = Ok []
  /\ fst (Retriever.retrieve (Sample.retriever Sample.failingModel Sample.scoredStore)
            "q" Sample.world) = Throw "429 Too Many Requests".
Proof.
  split.
  - rewrite (proj1 (retrieve_without_query_embedding
                      (Sample.retriever Sample.silentModel Sample.scoredStore)
                      "q" Sample.world) eq_refl).
    reflexivity.
  - rewrite (proj2 (retrieve_without_query_embedding
                      (Sample.retriever Sample.failingModel Sample.scoredStore)
                      "q" Sample.world) "429 Too Many Requests" eq_refl).
    reflexivity.
Defined.

(** ** The pipeline *)

(** C3. When [Retriever.retrieve] resolves with the empty sequence,
    [RAGPipeline.query] resolves with the fixed text "I couldn't find
    any specific information related to your query in my current
    knowledge base.", an empty [sourceDocuments] and the finish reason
    [no_context], in the world that [retrieve] left: the generator has
    not been called. *)
Theorem query_without_context_skips_generator
  (this : RAGPipeline.t) (query : string) (w w' : World) :
  Retriever.retrieve (RAGPipeline.retriever this) query w = (Ok [], w') ->
  RAGPipeline.query this query w
  = (Ok (mkLLMResponse
           "I couldn't find any specific information related to your query in my current knowledge base."
           (Some [])
           (Some (mkResponseMetadata (Some "no_context") None None))), w')
  /\ generatorCalls (trace (snd (RAGPipeline.query this query w)))
     = generatorCalls (trace w).
Proof.
  intros Hretrieve.
  assert (Hrun : RAGPipeline.query this query w
                 = (Ok (mkLLMResponse noContextText (Some [])
                          (Some (mkResponseMetadata (Some "no_context") None None))), w')).
  { unfold RAGPipeline.query, bind. rewrite Hretrieve. reflexivity. }
  split; [exact Hrun|].
  rewrite Hrun. cbn [snd].
  pose proof (retrieve_generator_frame (RAGPipeline.retriever this) query w) as H.
  rewrite Hretrieve in H. exact H.
Qed.

(** The only stored documents have similarities 0.5 and 0.6, below
    the default threshold: the answer is the fixed one and the history
    holds no call to the generator. *)
Lemma query_without_context_skips_generator_witness :
  fst (RAGPipeline.query (Sample.pipeline Sample.model Sample.lowStore) "q" Sample.world)
  = Ok (mkLLMResponse
          "I couldn't find any specific information related to your query in my current knowledge base."
          (Some [])
          (Some (mkResponseMetadata (Some "no_context") None None)))
  /\ generatorCalls
       (trace (snd (RAGPipeline.query (Sample.pipeline Sample.model Sample.lowStore)
                      "q" Sample.world)))
     = [].
Proof.
  destruct (query_without_context_skips_generator
              (Sample.pipeline Sample.model Sample.lowStore) "q" Sample.world
              (after Sample.world
                 (queryCall (Sample.retriever Sample.model Sample.lowStore) "q"))
              eq_refl) as [Hrun Hcalls].
  split.
  - rewrite Hrun. reflexivity.
  - exact Hcalls.
Defined.

(** ** The in-memory similarity search *)

(** C1, on the code. The in-memory search ranks nothing: on a store
    filled by [addDocuments] with document 0 (embedding (1, 0)) and
    then document 1 (embedding (0, 1)), a search for the vector (0, 1)
    with [topK = 1] returns document 0, the first one inserted,
    without a similarity, although the cosine of the query with
    document 1 is the larger; and so it does for every query. *)
Theorem inMemory_similaritySearch_returns_first_inserted :
  VectorStore.addDocuments Sample.emptyStore [0; 1] Sample.world
  = (Ok Sample.store1, Sample.world1)
  /\ RagDocument.embedding (heap Sample.world1 0) = Some (map Fin Sample.e1)
  /\ RagDocument.embedding (heap Sample.world1 1) = Some (map Fin Sample.e2)
  /\ (cosineSignedSquare Sample.e2 Sample.e1 < cosineSignedSquare Sample.e2 Sample.e2)%Q
  /\ VectorStore.similaritySearch Sample.store1 (map Fin Sample.e2) (Fin 1) Sample.world1
     = (Ok [0], Sample.world1)
  /\ RagDocument.similarity (heap Sample.world1 0) = None
  /\ (forall queryEmbedding,
        VectorStore.similaritySearch Sample.store1 queryEmbedding (Fin 1) Sample.world1
        = (Ok [0], Sample.world1)).
Proof. repeat split. Qed.

(** * Further properties of the code *)

(** ** [slice] and the in-memory search *)

Lemma slice0_nonneg {A : Type} (arr : list A) (q : Q) :
  (0 <= q)%Q -> slice0 arr (Fin q) = firstn (Z.to_nat (Qfloor q)) arr.
Proof.
  intros Hq. unfold slice0, ToIntegerOrInfinity, Qtruncate.
  rewrite (proj2 (Qle_bool_iff 0 q) Hq).
  assert (Hfloor : (0 <= Qfloor q)%Z) by (apply (Qfloor_resp_le 0 q Hq)).
  destruct (Z.ltb_spec (Qfloor q) 0) as [Hneg|_]; [lia|].
  destruct (Z.le_ge_cases (Qfloor q) (Z.of_nat (List.length arr))) as [Hle|Hge].
  - now rewrite Z.min_l.
  - rewrite Z.min_r by exact Hge. rewrite Nat2Z.id.
    rewrite !firstn_all2; [reflexivity | lia | lia].
Qed.

Lemma slice0_negative {A : Type} (arr : list A) (k : Z) :
  (k < 0)%Z ->
  slice0 arr (Fin (inject_Z k)) = firstn (List.length arr - Z.to_nat (- k)) arr.
Proof.
  intros Hk. unfold slice0, ToIntegerOrInfinity, Qtruncate.
  destruct (Qle_bool 0 (inject_Z k)) eqn:E.
  - apply Qle_bool_iff in E. unfold Qle in E. simpl in E. lia.
  - rewrite Qceiling_Z.
    destruct (Z.ltb_spec k 0) as [_|Hge]; [|lia].
    f_equal. lia.
Qed.

Lemma slice0_infinity {A : Type} (arr : list A) : slice0 arr Infinity = arr.
Proof. unfold slice0. simpl. rewrite Nat2Z.id. now apply firstn_all2. Qed.

Lemma slice0_NaN {A : Type} (arr : list A) : slice0 arr NaN = [].
Proof.
  unfold slice0. simpl.
  rewrite Z.min_l by lia. reflexivity.
Qed.

(** X1. On the in-memory backend a search with a [topK >= 0] resolves
    with the first [floor topK] stored documents in insertion order
    (all of them when there are fewer), whatever the query vector, and
    changes nothing: no external call, no document touched. *)
Theorem inMemory_search_takes_first_inserted
  (this : VectorStore.t) (store : JsMap.t loc) (queryEmbedding : list number)
  (q : Q) (w : World) :
  VectorStore.config this = InMemoryStoreConfig ->
  VectorStore.inMemoryStore this = Some store ->
  (0 <= q)%Q ->
  VectorStore.similaritySearch this queryEmbedding (Fin q) w
  = (Ok (firstn (Z.to_nat (Qfloor q)) (JsMap.values store)), w)
  /\ List.length (firstn (Z.to_nat (Qfloor q)) (JsMap.values store))
     = Nat.min (Z.to_nat (Qfloor q)) (List.length store).
Proof.
  intros Hc Hs Hq. split.
  - unfold VectorStore.similaritySearch. rewrite Hc, Hs.
    unfold ret. now rewrite slice0_nonneg.
  - rewrite length_firstn. unfold JsMap.values. now rewrite length_map.
Qed.

(** A [topK] of 5/2 on a store of three documents gives the first two. *)
Lemma inMemory_search_takes_first_inserted_witness :
  VectorStore.similaritySearch
    (VectorStore.mk InMemoryStoreConfig Sample.model
       (Some [("a", 0); ("b", 1); ("d", 4)]) None)
    [] (Fin (5 # 2)) Sample.world
  = (Ok [0; 1], Sample.world).
Proof.
  exact (proj1 (inMemory_search_takes_first_inserted
                  (VectorStore.mk InMemoryStoreConfig Sample.model
                     (Some [("a", 0); ("b", 1); ("d", 4)]) None)
                  [("a", 0); ("b", 1); ("d", 4)] [] (5 # 2) Sample.world
                  eq_refl eq_refl ltac:(discriminate))).
Defined.

(** X2. On the in-memory backend the other values of [topK] behave as
    [Array.prototype.slice] makes them: NaN and -Infinity give no
    document, +Infinity gives every stored document, and a negative
    integer [-n] gives all stored documents but the last [n]. *)
Theorem inMemory_search_unusual_topK
  (this : VectorStore.t) (store : JsMap.t loc) (queryEmbedding : list number) (w : World) :
  VectorStore.config this = InMemoryStoreConfig ->
  VectorStore.inMemoryStore this = Some store ->
  VectorStore.similaritySearch this queryEmbedding NaN w = (Ok [], w)
  /\ VectorStore.similaritySearch this queryEmbedding NegInfinity w = (Ok [], w)
  /\ VectorStore.similaritySearch this queryEmbedding Infinity w
     = (Ok (JsMap.values store), w)
  /\ (forall k : Z,
        (k < 0)%Z ->
        VectorStore.similaritySearch this queryEmbedding (Fin (inject_Z k)) w
        = (Ok (firstn (List.length store - Z.to_nat (- k)) (JsMap.values store)), w)).
Proof.
  intros Hc Hs. unfold VectorStore.similaritySearch. rewrite Hc, Hs. unfold ret.
  split; [now rewrite slice0_NaN|]. split; [reflexivity|].
  split; [now rewrite slice0_infinity|].
  intros k Hk. rewrite slice0_negative by exact Hk.
  unfold JsMap.values. now rewrite length_map.
Qed.

(** With [topK = -1] a store of two documents gives the first one only. *)
Lemma inMemory_search_unusual_topK_witness :
  VectorStore.similaritySearch Demo.plainStore [] (Fin (-1)) Sample.world
  = (Ok [0], Sample.world)
  /\ VectorStore.similaritySearch Demo.plainStore [] Infinity Sample.world
     = (Ok [0; 1], Sample.world).
Proof.
  pose proof (inMemory_search_unusual_topK Demo.plainStore [("a", 0); ("b", 1)] []
                Sample.world eq_refl eq_refl) as (_ & _ & Hinf & Hneg).
  split.
  - exact (Hneg (-1)%Z eq_refl).
  - exact Hinf.
Defined.

(** ** More on the in-memory [Map] *)

Lemma JsMap_keys_set_app {V : Type} (k : string) (v : V) (m : JsMap.t V) :
  exists added, JsMap.keys (JsMap.set k v m) = JsMap.keys m ++ added.
Proof.
  induction m as [|[k' v'] rest IH]; simpl.
  - now exists [k].
  - destruct (String.eqb_spec k' k) as [->|Hk]; simpl.
    + exists []. now rewrite app_nil_r.
    + destruct IH as [added IH]. exists added. now rewrite IH.
Qed.

Lemma JsMap_keys_set_in {V : Type} (k k0 : string) (v : V) (m : JsMap.t V) :
  k0 = k \/ In k0 (JsMap.keys m) -> In k0 (JsMap.keys (JsMap.set k v m)).
Proof.
  induction m as [|[k' v'] rest IH]; simpl.
  - intros [->|[]]. now left.
  - destruct (String.eqb_spec k' k) as [->|Hk]; simpl.
    + intros [->|[->|H]]; auto.
    + intros [->|[->|H]]; auto.
Qed.

Lemma JsMap_get_values {V : Type} (k : string) (v : V) (m : JsMap.t V) :
  JsMap.get k m = Some v -> In v (JsMap.values m).
Proof.
  induction m as [|[k' v'] rest IH]; simpl; [discriminate|].
  destruct (String.eqb k' k).
  - intros H. injection H as ->. now left.
  - intros H. right. now apply IH.
Qed.

Lemma storeAll_cons (h : Heap) (doc : loc) (rest : list loc) (store : JsMap.t loc) :
  VectorStore.storeAll h (doc :: rest) store
  = VectorStore.storeAll h rest
      (if isSome (RagDocument.embedding (h doc))
       then JsMap.set (RagDocument.id (h doc)) doc store else store).
Proof. reflexivity. Qed.

Lemma isSome_true {A : Type} (o : option A) : isSome o = true <-> o <> None.
Proof. destruct o; simpl; split; congruence. Qed.

Lemma storeAll_keys (h : Heap) (docs : list loc) :
  forall store k,
    In k (JsMap.keys (VectorStore.storeAll h docs store))
    <-> In k (JsMap.keys store)
        \/ exists doc,
             In doc docs
             /\ RagDocument.embedding (h doc) <> None
             /\ RagDocument.id (h doc) = k.
Proof.
  induction docs as [|doc rest IH]; intros store k.
  - simpl. split; [auto|]. intros [H|(doc & [] & _)]. exact H.
  - rewrite storeAll_cons, IH. split.
    + intros [H|(d & Hd & He & Hk)].
      * destruct (isSome (RagDocument.embedding (h doc))) eqn:E; [|auto].
        apply JsMap_keys_set in H. destruct H as [->|H]; [|auto].
        right. exists doc. split; [now left|]. split; [now apply isSome_true | reflexivity].
      * right. exists d. split; [now right | auto].
    + intros [H|(d & [->|Hd] & He & Hk)].
      * left. destruct (isSome (RagDocument.embedding (h doc))); [|exact H].
        apply JsMap_keys_set_in. now right.
      * left. apply isSome_true in He. rewrite He.
        apply JsMap_keys_set_in. left. now symmetry.
      * right. exists d. auto.
Qed.

Lemma storeAll_keys_app (h : Heap) (docs : list loc) :
  forall store,
    exists added,
      JsMap.keys (VectorStore.storeAll h docs store) = JsMap.keys store ++ added.
Proof.
  induction docs as [|doc rest IH]; intros store.
  - exists []. simpl. now rewrite app_nil_r.
  - rewrite storeAll_cons.
    destruct (IH (if isSome (RagDocument.embedding (h doc))
                  then JsMap.set (RagDocument.id (h doc)) doc store else store))
      as [added Hadded].
    rewrite Hadded.
    destruct (isSome (RagDocument.embedding (h doc))).
    + destruct (JsMap_keys_set_app (RagDocument.id (h doc)) doc store) as [added' H'].
      rewrite H'. exists (added' ++ added). now rewrite app_assoc.
    + now exists added.
Qed.

(** ** More on [addDocuments] *)

Lemma lastAt_exists (docs : list loc) (doc : loc) :
  In doc docs -> exists index, lastAt docs index doc.
Proof.
  induction docs as [|d rest IH]; intros Hin; [destruct Hin|].
  destruct (in_dec Nat.eq_dec doc rest) as [Hrest|Hrest].
  - destruct (IH Hrest) as [index [Hnth Hlast]].
    exists (S index). split; [exact Hnth|].
    intros [|j] Hj; [lia|]. simpl. apply Hlast. lia.
  - destruct Hin as [->|Hin]; [|contradiction].
    exists 0. split; [reflexivity|].
    intros [|j] Hj; [lia|]. simpl. intros H. apply Hrest.
    eapply nth_error_In. exact H.
Qed.

Lemma lastAt_bound (docs : list loc) (index : nat) (doc : loc) :
  lastAt docs index doc -> index < List.length docs.
Proof. intros [Hnth _]. apply nth_error_Some. congruence. Qed.

(** With a provider that answers every text, a document that has
    content carries an embedding after [addDocuments]. *)
Lemma addDocuments_embeds_content
  (this : VectorStore.t) (documents : list loc) (w : World) (doc : loc) :
  answersEveryText this w documents ->
  In doc documents ->
  RagDocument.content (heap w doc) <> EmptyString ->
  RagDocument.embedding (heap (snd (VectorStore.addDocuments this documents w)) doc) <> None.
Proof.
  intros Hanswers Hin Hcontent.
  destruct (addDocuments_effects this documents w) as [_ H].
  unfold answersEveryText in Hanswers.
  assert (Hbatch : In doc (docsToEmbed w documents)
                   \/ RagDocument.embedding (heap w doc) <> None).
  { destruct (RagDocument.embedding (heap w doc)) eqn:E; [right; discriminate|].
    left. unfold docsToEmbed. apply filter_In. split; [exact Hin|].
    apply needsEmbedding_spec. auto. }
  destruct (docsToEmbed w documents) as [|d rest] eqn:E.
  - destruct H as [H _]. rewrite H. destruct Hbatch as [[]|Hb]. exact Hb.
  - destruct H as [_ H]. destruct Hanswers as (embeddings & Hanswer & Hlen).
    rewrite Hanswer in H. rewrite H.
    destruct (in_dec Nat.eq_dec doc (d :: rest)) as [Hd|Hd].
    + destruct (lastAt_exists _ _ Hd) as [index Hlast].
      rewrite (assignAll_last embeddings (d :: rest) 0 (heap w) index doc Hlast).
      simpl. apply nth_error_Some. apply lastAt_bound in Hlast. lia.
    + rewrite assignAll_untouched by exact Hd.
      destruct Hbatch as [Hb|Hb]; [contradiction | exact Hb].
Qed.

(** X3. On the in-memory backend [addDocuments] is rejected exactly
    when it has documents to embed and the embedding provider rejects
    the batch, and then with the provider's error; in that case no
    document has been changed. *)
Theorem inMemory_addDocuments_rejects_with_provider
  (this : VectorStore.t) (store : JsMap.t loc) (documents : list loc) (w : World) :
  VectorStore.config this = InMemoryStoreConfig ->
  VectorStore.inMemoryStore this = Some store ->
  (forall e,
      fst (VectorStore.addDocuments this documents w) = Throw e
      <-> docsToEmbed w documents <> [] /\ batchAnswer this w documents = Throw e)
  /\ (forall e,
        fst (VectorStore.addDocuments this documents w) = Throw e ->
        heap (snd (VectorStore.addDocuments this documents w)) = heap w).
Proof.
  intros Hc Hs.
  assert (Hiff : forall e,
             fst (VectorStore.addDocuments this documents w) = Throw e
             <-> docsToEmbed w documents <> []
                 /\ batchAnswer this w documents = Throw e).
  { intros e. rewrite addDocuments_run.
    destruct documents as [|d rest] eqn:E.
    - simpl. split; [discriminate | intros [H _]; now contradiction H].
    - rewrite <- E. destruct (docsToEmbed w documents) as [|d' rest'].
      + rewrite (storeDocuments_inMemory this store) by assumption.
        simpl. split; [discriminate | intros [H _]; now contradiction H].
      + destruct (batchAnswer this w documents) as [embeddings|e'].
        * rewrite (storeDocuments_inMemory this store) by assumption.
          simpl. split; [discriminate | intros [_ H]; discriminate].
        * simpl. split.
          -- intros H. injection H as ->. split; [discriminate | reflexivity].
          -- intros [_ H]. injection H as ->. reflexivity. }
  split; [exact Hiff|].
  intros e He. apply Hiff in He. destruct He as [Hne Hanswer].
  destruct (addDocuments_effects this documents w) as [_ H].
  destruct (docsToEmbed w documents); [now contradiction Hne|].
  destruct H as [_ H]. now rewrite Hanswer in H.
Qed.

(** A rejected provider rejects the insertion of the revision, whose
    embedding stays absent. *)
Lemma inMemory_addDocuments_rejects_with_provider_witness :
  fst (VectorStore.addDocuments
         (VectorStore.mk InMemoryStoreConfig Sample.failingModel (Some []) None)
         [0; 2] Sample.world)
  = Throw "429 Too Many Requests"
  /\ heap (snd (VectorStore.addDocuments
                  (VectorStore.mk InMemoryStoreConfig Sample.failingModel (Some []) None)
                  [0; 2] Sample.world))
     = heap Sample.world.
Proof.
  pose proof (inMemory_addDocuments_rejects_with_provider
                (VectorStore.mk InMemoryStoreConfig Sample.failingModel (Some []) None)
                [] [0; 2] Sample.world eq_refl eq_refl) as [Hiff Hheap].
  assert (H : fst (VectorStore.addDocuments
                     (VectorStore.mk InMemoryStoreConfig Sample.failingModel (Some []) None)
                     [0; 2] Sample.world)
              = Throw "429 Too Many Requests").
  { apply Hiff. split; [discriminate | reflexivity]. }
  split; [exact H | exact (Hheap _ H)].
Defined.

(** X4. After [addDocuments] on the in-memory backend the ids in the
    store are the ids it held before together with the ids of the
    given documents that carry an embedding: a document left without
    an embedding is skipped, and no entry is ever removed. *)
Theorem inMemory_addDocuments_stores_embedded_only
  (this this' : VectorStore.t) (store : JsMap.t loc) (documents : list loc)
  (w w' : World) :
  VectorStore.config this = InMemoryStoreConfig ->
  VectorStore.inMemoryStore this = Some store ->
  VectorStore.addDocuments this documents w = (Ok this', w') ->
  exists store',
    VectorStore.inMemoryStore this' = Some store'
    /\ forall k,
         In k (JsMap.keys store')
         <-> In k (JsMap.keys store)
             \/ exists doc,
                  In doc documents
                  /\ RagDocument.embedding (heap w' doc) <> None
                  /\ RagDocument.id (heap w' doc) = k.
Proof.
  intros Hc Hs Hrun.
  destruct (addDocuments_inMemory _ _ _ _ _ _ Hc Hs Hrun) as [_ Hs'].
  eexists. split; [exact Hs'|].
  intros k. apply storeAll_keys.
Qed.

(** Of the revision of "a" and the document "c" without content, added
    to a store holding "a" and "b", only "a" is stored again: the ids
    are still "a" and "b". *)
Lemma inMemory_addDocuments_stores_embedded_only_witness :
  exists store',
    VectorStore.inMemoryStore Sample.store2 = Some store'
    /\ (In "c" (JsMap.keys store') <-> False)
    /\ (In "a" (JsMap.keys store') <-> True).
Proof.
  destruct (inMemory_addDocuments_stores_embedded_only
              Sample.store1 Sample.store2 [("a", 0); ("b", 1)] [2; 3]
              Sample.world1 Sample.world2 eq_refl eq_refl eq_refl)
    as (store' & Hs & Hkeys).
  exists store'. split; [exact Hs|]. split.
  - rewrite Hkeys. split; [|intros []].
    intros [[H|[H|[]]]|(doc & [<-|[<-|[]]] & He & Hk)]; try discriminate.
    apply He. reflexivity.
  - rewrite Hkeys. split; [auto|]. intros _. left. now left.
Defined.

(** X5. [addDocuments] on the in-memory backend keeps the insertion
    order: the ids held before stay where they were, new ids come after
    them, and an entry whose id is not the id of a document stored by
    this call keeps its document. *)
Theorem inMemory_addDocuments_keeps_order
  (this this' : VectorStore.t) (store : JsMap.t loc) (documents : list loc)
  (w w' : World) :
  VectorStore.config this = InMemoryStoreConfig ->
  VectorStore.inMemoryStore this = Some store ->
  VectorStore.addDocuments this documents w = (Ok this', w') ->
  exists store',
    VectorStore.inMemoryStore this' = Some store'
    /\ (exists added, JsMap.keys store' = JsMap.keys store ++ added)
    /\ (forall k,
          (forall doc,
              In doc documents ->
              RagDocument.embedding (heap w' doc) <> None ->
              RagDocument.id (heap w' doc) <> k) ->
          JsMap.get k store' = JsMap.get k store).
Proof.
  intros Hc Hs Hrun.
  destruct (addDocuments_inMemory _ _ _ _ _ _ Hc Hs Hrun) as [_ Hs'].
  eexists. split; [exact Hs'|]. split.
  - apply storeAll_keys_app.
  - intros k Hk. now apply storeAll_untouched.
Qed.

(** Storing the revision of "a" leaves "a" first and "b" second, and
    "b" keeps its document. *)
Lemma inMemory_addDocuments_keeps_order_witness :
  exists store',
    VectorStore.inMemoryStore Sample.store2 = Some store'
    /\ (exists added, JsMap.keys store' = ["a"; "b"] ++ added)
    /\ JsMap.get "b" store' = Some 1.
Proof.
  destruct (inMemory_addDocuments_keeps_order
              Sample.store1 Sample.store2 [("a", 0); ("b", 1)] [2; 3]
              Sample.world1 Sample.world2 eq_refl eq_refl eq_refl)
    as (store' & Hs & Horder & Hget).
  exists store'. split; [exact Hs|]. split; [exact Horder|].
  rewrite (Hget "b"); [reflexivity|].
  intros doc [<-|[<-|[]]] He; [discriminate|].
  exfalso. apply He. reflexivity.
Defined.

Lemma lastStored_exists (h : Heap) (k : string) (docs : list loc) :
  (exists doc,
      In doc docs /\ RagDocument.embedding (h doc) <> None /\ RagDocument.id (h doc) = k) ->
  exists index stored,
    lastStored h docs index stored /\ RagDocument.id (h stored) = k.
Proof.
  induction docs as [|d rest IH]; intros (doc & Hin & He & Hk); [destruct Hin|].
  destruct (existsb (fun x => isSome (RagDocument.embedding (h x))
                              && String.eqb (RagDocument.id (h x)) k) rest) eqn:E.
  - apply existsb_exists in E. destruct E as (x & Hx & Hb).
    apply andb_prop in Hb. destruct Hb as [Hb1 Hb2].
    destruct IH as (index & stored & (Hnth & Hemb & Hlast) & Hid).
    { exists x. split; [exact Hx|]. split; [now apply isSome_true|].
      now apply String.eqb_eq. }
    exists (S index), stored. split; [|exact Hid].
    split; [exact Hnth|]. split; [exact Hemb|].
    intros [|j] d' Hj; [lia|]. simpl. apply Hlast. lia.
  - assert (Hrest : forall x, In x rest -> RagDocument.embedding (h x) <> None ->
                              RagDocument.id (h x) <> k).
    { intros x Hx Hex Hidx.
      assert (Hex' : existsb (fun x => isSome (RagDocument.embedding (h x))
                                       && String.eqb (RagDocument.id (h x)) k) rest = true).
      { apply existsb_exists. exists x. split; [exact Hx|].
        apply andb_true_intro. split; [now apply isSome_true | now apply String.eqb_eq]. }
      congruence. }
    destruct Hin as [->|Hin]; [|exfalso; now apply (Hrest doc)].
    exists 0, doc. split; [|exact Hk].
    split; [reflexivity|]. split; [exact He|].
    intros [|j] d' Hj Hnth Hemb; [lia|]. simpl in Hnth.
    rewrite Hk. apply Hrest; [eapply nth_error_In; exact Hnth | exact Hemb].
Qed.

(** X6. Round trip on the in-memory backend: when the provider answers
    every text, a document with content that is given to
    [addDocuments] is in the store afterwards under its id, unless a
    later document of the same call took that id, and a search with
    [topK = Infinity] returns the document stored under that id. *)
Theorem inMemory_added_document_is_found
  (this this' : VectorStore.t) (store : JsMap.t loc) (documents : list loc)
  (w w' : World) (doc : loc) (queryEmbedding : list number) :
  VectorStore.config this = InMemoryStoreConfig ->
  VectorStore.inMemoryStore this = Some store ->
  answersEveryText this w documents ->
  VectorStore.addDocuments this documents w = (Ok this', w') ->
  In doc documents ->
  RagDocument.content (heap w doc) <> EmptyString ->
  exists store' index stored,
    VectorStore.inMemoryStore this' = Some store'
    /\ lastStored (heap w') documents index stored
    /\ RagDocument.id (heap w' stored) = RagDocument.id (heap w' doc)
    /\ JsMap.get (RagDocument.id (heap w' doc)) store' = Some stored
    /\ exists found,
         VectorStore.similaritySearch this' queryEmbedding Infinity w' = (Ok found, w')
         /\ In stored found.
Proof.
  intros Hc Hs Hanswers Hrun Hin Hcontent.
  destruct (addDocuments_inMemory _ _ _ _ _ _ Hc Hs Hrun) as [Hc' Hs'].
  pose proof (addDocuments_embeds_content this documents w doc Hanswers Hin Hcontent)
    as Hemb.
  rewrite Hrun in Hemb. cbn [snd] in Hemb.
  destruct (lastStored_exists (heap w') (RagDocument.id (heap w' doc)) documents)
    as (index & stored & Hlast & Hid).
  { exists doc. auto. }
  pose proof (storeAll_last (heap w') documents store index stored Hlast) as Hget.
  rewrite Hid in Hget.
  eexists. exists index, stored.
  split; [exact Hs'|]. split; [exact Hlast|]. split; [exact Hid|].
  split; [exact Hget|].
  eexists. split.
  - unfold VectorStore.similaritySearch. rewrite Hc', Hs'. unfold ret.
    rewrite slice0_infinity. reflexivity.
  - eapply JsMap_get_values. exact Hget.
Qed.

(** The revision of "a", given without an embedding, is embedded,
    stored under "a" and found. *)
Lemma inMemory_added_document_is_found_witness :
  exists found,
    VectorStore.similaritySearch Sample.store2 [] Infinity Sample.world2
    = (Ok found, Sample.world2)
    /\ In 2 found.
Proof.
  destruct (inMemory_added_document_is_found
              Sample.store1 Sample.store2 [("a", 0); ("b", 1)] [2; 3]
              Sample.world1 Sample.world2 2 [] eq_refl eq_refl)
    as (store' & index & stored & Hs & Hlast & Hid & Hget & found & Hsearch & Hfound).
  - exists [map Fin Sample.e2]. split; [reflexivity | simpl; lia].
  - reflexivity.
  - now left.
  - discriminate.
  - exists found. split; [exact Hsearch|].
    injection Hs as <-. injection Hget as <-. exact Hfound.
Defined.

Lemma filter_none {A : Type} (f : A -> bool) (l : list A) :
  (forall x, In x l -> f x = false) -> filter f l = [].
Proof.
  induction l as [|a rest IH]; intros H; simpl; [reflexivity|].
  rewrite (H a) by now left. apply IH. intros x Hx. apply H. now right.
Qed.

(** X7. Adding the same documents again embeds nothing: after an
    [addDocuments] whose provider answered every text, a further
    [addDocuments] of these documents, on any store, has no document to
    embed, does not call the provider and changes no document. *)
Theorem addDocuments_again_embeds_nothing
  (this other : VectorStore.t) (documents : list loc) (w : World) :
  answersEveryText this w documents ->
  let w' := snd (VectorStore.addDocuments this documents w) in
  let w'' := snd (VectorStore.addDocuments other documents w') in
  docsToEmbed w' documents = []
  /\ embeddingCalls (trace w'') = embeddingCalls (trace w')
  /\ heap w'' = heap w'.
Proof.
  intros Hanswers w' w''.
  assert (Hnone : docsToEmbed w' documents = []).
  { unfold docsToEmbed. apply filter_none. intros doc Hin.
    destruct (VectorStore.needsEmbedding (heap w') doc) eqn:E; [|reflexivity].
    apply needsEmbedding_spec in E. destruct E as [Hemb Hcontent].
    exfalso.
    destruct (addDocuments_keeps_fields this documents w doc) as (_ & Hc & _).
    fold w' in Hc. rewrite Hc in Hcontent.
    exact (addDocuments_embeds_content this documents w doc Hanswers Hin Hcontent Hemb). }
  split; [exact Hnone|].
  destruct (addDocuments_effects other documents w') as [_ H].
  rewrite Hnone in H. destruct H as [H1 H2]. split; [exact H2 | exact H1].
Qed.

(** The four sample documents are added twice: one provider call in
    all, made by the first addition. *)
Lemma addDocuments_again_embeds_nothing_witness :
  embeddingCalls
    (trace (snd (VectorStore.addDocuments Sample.emptyStore [0; 1; 2; 3]
                   (snd (VectorStore.addDocuments Sample.emptyStore [0; 1; 2; 3]
                           Sample.world)))))
  = [["alpha, revised"]].
Proof.
  pose proof (addDocuments_again_embeds_nothing
                Sample.emptyStore Sample.emptyStore [0; 1; 2; 3] Sample.world) as H.
  cbv zeta in H. destruct H as (_ & Hcalls & _).
  - exists [map Fin Sample.e2]. split; [reflexivity | simpl; lia].
  - rewrite Hcalls. reflexivity.
Defined.

(** ** The Astra DB backend *)

Lemma embedMissing_frame (this : VectorStore.t) (documents : list loc) (w : World) :
  storageCalls (trace (snd (VectorStore.embedMissing this documents w)))
  = storageCalls (trace w)
  /\ nextLoc (snd (VectorStore.embedMissing this documents w)) = nextLoc w.
Proof.
  rewrite embedMissing_run.
  destruct (docsToEmbed w documents); [auto|].
  destruct (batchAnswer this w documents); cbn [snd after trace nextLoc];
    rewrite storageCalls_app; simpl; rewrite app_nil_r; auto.
Qed.

Lemma addDocuments_steps (this : VectorStore.t) (documents : list loc) (w : World) :
  documents <> [] ->
  VectorStore.addDocuments this documents w
  = match VectorStore.embedMissing this documents w with
    | (Ok _, w1) => VectorStore.storeDocuments this documents w1
    | (Throw e, w1) => (Throw e, w1)
    end.
Proof.
  intros Hne. unfold VectorStore.addDocuments.
  destruct documents as [|d rest]; [now contradiction Hne|].
  reflexivity.
Qed.

Lemma storeDocuments_astra
  (this : VectorStore.t) (collection : AstraCollection.t) (documents : list loc) (w : World)
  (token endpoint name keyspace : string) (dimension : number) :
  VectorStore.config this = AstraDBStoreConfig token endpoint name keyspace dimension ->
  VectorStore.astraCollection this = Some collection ->
  VectorStore.storeDocuments this documents w
  = match astraRecords (heap w) documents with
    | [] => (Ok this, w)
    | _ :: _ =>
        (match AstraCollection.insertMany_answer collection (trace w)
                 (astraRecords (heap w) documents) with
         | Ok _ => Ok this
         | Throw e => Throw e
         end,
         after w (InsertManyCall (AstraCollection.collectionName collection)
                    (astraRecords (heap w) documents)))
    end.
Proof.
  intros Hc Hcoll. unfold VectorStore.storeDocuments, bind, get_heap.
  rewrite Hc, Hcoll. fold (astraRecords (heap w) documents).
  destruct (astraRecords (heap w) documents) as [|r rest]; [reflexivity|].
  cbn [List.length Nat.ltb Nat.leb].
  unfold AstraCollection.insertMany, external, after.
  destruct (AstraCollection.insertMany_answer collection (trace w) (r :: rest));
    reflexivity.
Qed.

Lemma astraRecords_spec (h : Heap) (documents : list loc) (r : AstraDocument) :
  In r (astraRecords h documents) ->
  exists doc,
    In doc documents
    /\ _id r = RagDocument.id (h doc)
    /\ text r = RagDocument.content (h doc)
    /\ astra_metadata r = RagDocument.metadata (h doc)
    /\ vector r = RagDocument.embedding (h doc)
    /\ vector r <> None.
Proof.
  unfold astraRecords. intros Hin. apply in_map_iff in Hin.
  destruct Hin as (doc & <- & Hdoc). apply filter_In in Hdoc.
  destruct Hdoc as [Hdoc Hemb]. exists doc. simpl.
  repeat split; try assumption. now apply isSome_true.
Qed.

(** X8. On the Astra DB backend, once the embedding step has resolved,
    [addDocuments] calls [insertMany] at most once: not at all when no
    document carries an embedding, otherwise once with one record per
    document that carries one, in input order, each with the id, the
    content, the metadata and the vector of its document; the call
    resolves with the store unless [insertMany] is rejected, whose
    error it passes on. When the embedding step is rejected nothing is
    sent to the database. *)
Theorem astra_addDocuments_inserts_once
  (this : VectorStore.t) (collection : AstraCollection.t) (documents : list loc) (w : World)
  (token endpoint name keyspace : string) (dimension : number) :
  VectorStore.config this = AstraDBStoreConfig token endpoint name keyspace dimension ->
  VectorStore.astraCollection this = Some collection ->
  let embedded := VectorStore.embedMissing this documents w in
  let run := VectorStore.addDocuments this documents w in
  let records := astraRecords (heap (snd run)) documents in
  (fst embedded = Ok tt ->
   storageCalls (trace (snd run))
   = storageCalls (trace w)
     ++ match records with
        | [] => []
        | _ :: _ => [InsertManyCall (AstraCollection.collectionName collection) records]
        end
   /\ fst run
      = match records with
        | [] => Ok this
        | _ :: _ =>
            match AstraCollection.insertMany_answer collection
                    (trace (snd embedded)) records with
            | Ok _ => Ok this
            | Throw e => Throw e
            end
        end
   /\ forall r,
        In r records ->
        exists doc,
          In doc documents
          /\ _id r = RagDocument.id (heap (snd run) doc)
          /\ text r = RagDocument.content (heap (snd run) doc)
          /\ astra_metadata r = RagDocument.metadata (heap (snd run) doc)
          /\ vector r = RagDocument.embedding (heap (snd run) doc)
          /\ vector r <> None)
  /\ (forall e,
        fst embedded = Throw e ->
        fst run = Throw e /\ storageCalls (trace (snd run)) = storageCalls (trace w)).
Proof.
  intros Hc Hcoll. cbv zeta.
  destruct documents as [|d rest] eqn:E.
  - split; [|discriminate].
    intros _. simpl. rewrite app_nil_r. repeat split.
    intros r [].
  - rewrite <- E in *.
    assert (Hne : documents <> []) by (rewrite E; discriminate).
    rewrite (addDocuments_steps this documents w Hne).
    destruct (embedMissing_frame this documents w) as [Hstorage _].
    destruct (VectorStore.embedMissing this documents w) as [[[]|e] w1];
      cbn [fst snd] in *.
    + split; [|discriminate]. intros _.
      rewrite (storeDocuments_astra this collection documents w1
                 token endpoint name keyspace dimension Hc Hcoll).
      destruct (astraRecords (heap w1) documents) as [|r rs] eqn:Er.
      * cbn [fst snd]. rewrite Er, app_nil_r.
        split; [exact Hstorage|]. split; [reflexivity|]. intros r [].
      * cbn [fst snd after heap trace]. rewrite Er.
        rewrite storageCalls_app, Hstorage.
        split; [reflexivity|]. split; [reflexivity|].
        intros r0 Hr0. rewrite <- Er in Hr0. now apply astraRecords_spec.
    + split; [discriminate|]. intros e' He'. injection He' as <-.
      split; [reflexivity | exact Hstorage].
Qed.

(** The two embedded documents and the document without content go to
    Astra DB: one [insertMany] with the records of the first two. *)
Lemma astra_addDocuments_inserts_once_witness :
  storageCalls
    (trace (snd (VectorStore.addDocuments (Demo.astraStore Demo.collection)
                   [0; 3; 1] Sample.world)))
  = [InsertManyCall "docs"
       [mkAstraDocument "a" "alpha" (Some (map Fin Sample.e1)) None None;
        mkAstraDocument "b" "beta" (Some (map Fin Sample.e2)) None None]]
  /\ fst (VectorStore.addDocuments (Demo.astraStore Demo.failingCollection)
            [0; 3; 1] Sample.world)
     = Throw "503 Service Unavailable".
Proof.
  split.
  - exact (proj1 (proj1 (astra_addDocuments_inserts_once
                           (Demo.astraStore Demo.collection) Demo.collection [0; 3; 1]
                           Sample.world "token" "endpoint" "docs" "keyspace" (Fin 2)
                           eq_refl eq_refl) eq_refl)).
  - exact (proj1 (proj2 (proj1 (astra_addDocuments_inserts_once
                           (Demo.astraStore Demo.failingCollection) Demo.failingCollection
                           [0; 3; 1] Sample.world "token" "endpoint" "docs" "keyspace"
                           (Fin 2) eq_refl eq_refl) eq_refl))).
Defined.

Lemma mapM_alloc_run (f : AstraDocument -> RagDocument.t) (arr : list AstraDocument) :
  forall w,
    exists h',
      mapM (fun a => alloc (f a)) arr w
      = (Ok (seq (nextLoc w) (List.length arr)),
         mkWorld h' (nextLoc w + List.length arr) (trace w))
      /\ (forall l, l < nextLoc w -> h' l = heap w l)
      /\ (forall i a, nth_error arr i = Some a -> h' (nextLoc w + i) = f a).
Proof.
  induction arr as [|a rest IH]; intros w.
  - exists (heap w). simpl. unfold ret. rewrite Nat.add_0_r, world_eta.
    split; [reflexivity|]. split; [reflexivity|].
    intros [|i] a'; discriminate.
  - destruct (IH (mkWorld (upd (heap w) (nextLoc w) (f a)) (S (nextLoc w)) (trace w)))
      as (h' & Hrun & Hold & Hnew).
    cbn [heap nextLoc trace] in Hrun, Hold, Hnew.
    exists h'. split; [|split].
    + cbn [mapM]. unfold bind at 1. unfold alloc at 1.
      unfold bind at 1. rewrite Hrun. unfold ret. cbn [List.length seq].
      replace (nextLoc w + S (List.length rest))
        with (S (nextLoc w) + List.length rest) by lia.
      reflexivity.
    + intros l Hl. rewrite Hold by lia. apply upd_other. lia.
    + intros [|i] a' Hnth.
      * simpl in Hnth. injection Hnth as <-.
        rewrite Nat.add_0_r, Hold by lia. apply upd_same.
      * simpl in Hnth. replace (nextLoc w + S i) with (S (nextLoc w) + i) by lia.
        now apply Hnew.
Qed.

(** X9. On the Astra DB backend a similarity search calls [find]
    exactly once, with the query vector and [topK]. If [find] is
    rejected, so is the search, with the same error and no document
    changed. Otherwise the search resolves with one new object per
    record found, in the order of the database, holding the record's
    id, text, metadata, vector and similarity; the documents that
    existed before are left as they were. *)
Theorem astra_search_builds_new_documents
  (this : VectorStore.t) (collection : AstraCollection.t)
  (queryEmbedding : list number) (topK : number) (w : World)
  (token endpoint name keyspace : string) (dimension : number) :
  VectorStore.config this = AstraDBStoreConfig token endpoint name keyspace dimension ->
  VectorStore.astraCollection this = Some collection ->
  let run := VectorStore.similaritySearch this queryEmbedding topK w in
  let call := FindCall (AstraCollection.collectionName collection) queryEmbedding topK in
  trace (snd run) = trace w ++ [call]
  /\ (forall e,
        AstraCollection.find_answer collection (trace w) queryEmbedding topK = Throw e ->
        run = (Throw e, after w call))
  /\ (forall results,
        AstraCollection.find_answer collection (trace w) queryEmbedding topK = Ok results ->
        fst run = Ok (seq (nextLoc w) (List.length results))
        /\ nextLoc (snd run) = nextLoc w + List.length results
        /\ (forall l, l < nextLoc w -> heap (snd run) l = heap w l)
        /\ (forall i a,
              nth_error results i = Some a ->
              heap (snd run) (nextLoc w + i) = VectorStore.fromAstraDocument a)).
Proof.
  intros Hc Hcoll run call. subst run.
  unfold VectorStore.similaritySearch. rewrite Hc, Hcoll.
  unfold bind, AstraCollection.find, external. fold call.
  destruct (AstraCollection.find_answer collection (trace w) queryEmbedding topK)
    as [results|e].
  - destruct (mapM_alloc_run VectorStore.fromAstraDocument results
                (mkWorld (heap w) (nextLoc w) (trace w ++ [call])))
      as (h' & Hrun & Hold & Hnew).
    cbn [heap nextLoc trace] in Hrun, Hold, Hnew. rewrite Hrun. cbn [fst snd trace].
    split; [reflexivity|]. split; [discriminate|].
    intros results' H. injection H as <-.
    cbn [nextLoc heap]. auto.
  - cbn [fst snd trace]. split; [reflexivity|]. split; [|discriminate].
    intros e' H. injection H as <-. reflexivity.
Qed.

(** The sample collection finds one record: the search returns the
    first free reference, which then holds that record, similarity
    included. *)
Lemma astra_search_builds_new_documents_witness :
  fst (VectorStore.similaritySearch (Demo.astraStore Demo.collection)
         (map Fin Sample.e1) (Fin 3) Sample.world)
  = Ok [7]
  /\ heap (snd (VectorStore.similaritySearch (Demo.astraStore Demo.collection)
                  (map Fin Sample.e1) (Fin 3) Sample.world)) 7
     = RagDocument.mk "x" "chi" None (Some (map Fin Sample.e1)) (Some (Fin (9 # 10)))
  /\ VectorStore.similaritySearch (Demo.astraStore Demo.failingCollection)
       (map Fin Sample.e1) (Fin 3) Sample.world
     = (Throw "503 Service Unavailable",
        after Sample.world (FindCall "docs" (map Fin Sample.e1) (Fin 3))).
Proof.
  pose proof (astra_search_builds_new_documents
                (Demo.astraStore Demo.collection) Demo.collection
                (map Fin Sample.e1) (Fin 3) Sample.world
                "token" "endpoint" "docs" "keyspace" (Fin 2) eq_refl eq_refl)
    as (_ & _ & Hok).
  destruct (Hok _ eq_refl) as (Hres & _ & _ & Hnew).
  split; [exact Hres|]. split.
  - exact (Hnew 0 _ eq_refl).
  - exact (proj1 (proj2 (astra_search_builds_new_documents
                           (Demo.astraStore Demo.failingCollection) Demo.failingCollection
                           (map Fin Sample.e1) (Fin 3) Sample.world
                           "token" "endpoint" "docs" "keyspace" (Fin 2) eq_refl eq_refl))
             _ eq_refl).
Defined.

(** ** Construction of a store *)

Lemma slice0_nil {A : Type} (topK : number) : slice0 (@nil A) topK = [].
Proof. unfold slice0. apply firstn_nil. Qed.

(** X10. [new VectorStore(config, model)] never fails for the
    in-memory provider, and the store it builds is empty: every search
    on it resolves with no document. For Astra DB it fails exactly when
    the connection does, with the message of the connection error
    after a fixed prefix. A store that is built has the backend its
    configuration names, and the model it was given. *)
Theorem new_store_is_initialized
  (connect : string -> string -> string -> string -> Result AstraCollection.t)
  (random : list Event -> nat -> nat -> number)
  (config : VectorStoreConfig) (model : option EmbeddingModel.t) :
  (forall this,
      VectorStore.new connect random config model = Ok this ->
      initialized this
      /\ VectorStore.config this = config
      /\ (forall m, model = Some m -> VectorStore.embeddingModel this = m))
  /\ (config = InMemoryStoreConfig ->
      exists this,
        VectorStore.new connect random config model = Ok this
        /\ VectorStore.inMemoryStore this = Some []
        /\ forall queryEmbedding topK w,
             VectorStore.similaritySearch this queryEmbedding topK w = (Ok [], w))
  /\ (forall token endpoint name keyspace dimension,
        config = AstraDBStoreConfig token endpoint name keyspace dimension ->
        (forall e,
            connect token endpoint keyspace name = Throw e ->
            VectorStore.new connect random config model
            = Throw ("AstraDB client initialization failed: " ++ e)%string)
        /\ (forall collection,
              connect token endpoint keyspace name = Ok collection ->
              exists this,
                VectorStore.new connect random config model = Ok this
                /\ VectorStore.astraCollection this = Some collection)).
Proof.
  split; [|split].
  - intros this. unfold VectorStore.new.
    destruct config as [|token endpoint name keyspace dimension].
    + intros H. injection H as <-. unfold initialized. simpl.
      split; [discriminate|]. split; [reflexivity|]. now intros m ->.
    + destruct (connect token endpoint keyspace name) as [collection|e]; [|discriminate].
      intros H. injection H as <-. unfold initialized. simpl.
      split; [discriminate|]. split; [reflexivity|]. now intros m ->.
  - intros ->. eexists. split; [reflexivity|]. split; [reflexivity|].
    intros queryEmbedding topK w. unfold VectorStore.similaritySearch. simpl.
    unfold ret, JsMap.values. simpl. now rewrite slice0_nil.
  - intros token endpoint name keyspace dimension ->. split.
    + intros e He. unfold VectorStore.new. now rewrite He.
    + intros collection Hcoll. unfold VectorStore.new. rewrite Hcoll.
      eexists. split; reflexivity.
Qed.

(** Without a token the sample connection fails and so does the
    construction; the in-memory construction gives the empty store. *)
Lemma new_store_is_initialized_witness :
  VectorStore.new Demo.connect Demo.random
    (AstraDBStoreConfig "" "endpoint" "docs" "keyspace" (Fin 2)) (Some Sample.model)
  = Throw "AstraDB client initialization failed: missing token"
  /\ VectorStore.new Demo.connect Demo.random InMemoryStoreConfig (Some Sample.model)
     = Ok Sample.emptyStore.
Proof.
  split.
  - exact (proj1 (proj2 (proj2 (new_store_is_initialized Demo.connect Demo.random
                                  (AstraDBStoreConfig "" "endpoint" "docs" "keyspace" (Fin 2))
                                  (Some Sample.model)))
                    "" "endpoint" "docs" "keyspace" (Fin 2) eq_refl)
             "missing token" eq_refl).
  - reflexivity.
Defined.

(** ** More on [retrieve] *)

Lemma similaritySearch_embedding_frame
  (this : VectorStore.t) (queryEmbedding : list number) (topK : number) (w : World) :
  embeddingCalls (trace (snd (VectorStore.similaritySearch this queryEmbedding topK w)))
  = embeddingCalls (trace w).
Proof.
  unfold VectorStore.similaritySearch.
  destruct (VectorStore.config this).
  - destruct (VectorStore.inMemoryStore this); reflexivity.
  - destruct (VectorStore.astraCollection this) as [collection|]; [|reflexivity].
    unfold bind, AstraCollection.find, external.
    destruct (AstraCollection.find_answer collection (trace w) queryEmbedding topK)
      as [astraResults|e]; cbn [snd trace].
    + rewrite mapM_alloc_trace. cbn [trace].
      rewrite embeddingCalls_app. simpl. apply app_nil_r.
    + rewrite embeddingCalls_app. simpl. apply app_nil_r.
Qed.

(** X11. Whatever its outcome, one [retrieve] calls the embedding
    provider exactly once, with the query as a batch of one text, and
    never calls the generator. *)
Theorem retrieve_embeds_query_once (this : Retriever.t) (query : string) (w : World) :
  embeddingCalls (trace (snd (Retriever.retrieve this query w)))
  = embeddingCalls (trace w) ++ [[query]]
  /\ generatorCalls (trace (snd (Retriever.retrieve this query w)))
     = generatorCalls (trace w).
Proof.
  split; [|apply retrieve_generator_frame].
  rewrite retrieve_run.
  assert (Hafter : embeddingCalls (trace (after w (queryCall this query)))
                   = embeddingCalls (trace w) ++ [[query]]).
  { unfold after. cbn [trace]. now rewrite embeddingCalls_app. }
  destruct (EmbeddingModel.respond (Retriever.embeddingModel this) (trace w) [query])
    as [[|queryEmbedding others]|e]; try exact Hafter.
  rewrite <- Hafter.
  rewrite <- (similaritySearch_embedding_frame (Retriever.vectorStore this) queryEmbedding
                (Retriever.topK this) (after w (queryCall this query))).
  destruct (VectorStore.similaritySearch (Retriever.vectorStore this) queryEmbedding
              (Retriever.topK this) (after w (queryCall this query))) as [[found|e] w1];
    reflexivity.
Qed.

Lemma In_firstn {A : Type} (n : nat) (l : list A) (x : A) :
  In x (firstn n l) -> In x l.
Proof.
  intros H. rewrite <- (firstn_skipn n l). apply in_or_app. now left.
Qed.

Lemma filter_all {A : Type} (f : A -> bool) (l : list A) :
  (forall x, In x l -> f x = true) -> filter f l = l.
Proof.
  induction l as [|a rest IH]; intros H; simpl; [reflexivity|].
  rewrite (H a) by now left. f_equal. apply IH. intros x Hx. apply H. now right.
Qed.

(** X12. On the in-memory backend, whose stored documents carry no
    similarity, the threshold of the retriever filters nothing: once
    the query is embedded, [retrieve] resolves with the result of the
    search itself, the first [topK] stored documents, and its only
    effect is the embedding call. *)
Theorem inMemory_retrieve_ignores_threshold
  (this : Retriever.t) (store : JsMap.t loc) (query : string) (w : World)
  (queryEmbedding : list number) (others : list (list number)) :
  VectorStore.config (Retriever.vectorStore this) = InMemoryStoreConfig ->
  VectorStore.inMemoryStore (Retriever.vectorStore this) = Some store ->
  (forall doc, In doc (JsMap.values store) -> RagDocument.similarity (heap w doc) = None) ->
  EmbeddingModel.respond (Retriever.embeddingModel this) (trace w) [query]
  = Ok (queryEmbedding :: others) ->
  Retriever.retrieve this query w
  = (Ok (slice0 (JsMap.values store) (Retriever.topK this)),
     after w (queryCall this query)).
Proof.
  intros Hc Hs Hnone Hembed.
  rewrite retrieve_run, Hembed.
  unfold VectorStore.similaritySearch. rewrite Hc, Hs. unfold ret.
  rewrite filter_all; [reflexivity|].
  intros doc Hdoc. unfold Retriever.isRelevant. cbn [after heap].
  rewrite Hnone; [reflexivity|].
  unfold slice0 in Hdoc. eapply In_firstn. exact Hdoc.
Qed.

(** With a threshold of 0.99 the retriever still returns both plain
    documents of the store. *)
Lemma inMemory_retrieve_ignores_threshold_witness :
  fst (Retriever.retrieve
         (Retriever.mk Demo.plainStore Sample.model (Fin 5) (Fin (99 # 100)))
         "q" Sample.world)
  = Ok [0; 1].
Proof.
  rewrite (inMemory_retrieve_ignores_threshold
             (Retriever.mk Demo.plainStore Sample.model (Fin 5) (Fin (99 # 100)))
             [("a", 0); ("b", 1)] "q" Sample.world (map Fin Sample.e2) []
             eq_refl eq_refl).
  - reflexivity.
  - intros doc [<-|[<-|[]]]; reflexivity.
  - reflexivity.
Defined.

(** ** The generator *)

(** The call that [generate] and [generateStream] make for a prompt. *)
Lemma generate_with_client (this : LLM.t) (client : OpenAI) (prompt : string) (w : World) :
  LLM.openaiClient this = Some client ->
  LLM.generate this prompt w
  = (match create_answer client (trace w) (LLM.config this) prompt with
     | Ok completion =>
         match choices completion with
         | [] => Throw "TypeError: Cannot read properties of undefined (reading 'message')"
         | choice :: _ =>
             Ok (mkLLMResponse
                   (match message_content choice with
                    | Some (Some s) => s
                    | _ => EmptyString
                    end)
                   None
                   (Some (mkResponseMetadata
                            (Some (finish_reason choice))
                            (Some (mkTokenUsage
                                     (match usage completion with
                                      | Some u => prompt_tokens u | None => None end)
                                     (match usage completion with
                                      | Some u => completion_tokens u | None => None end)
                                     (match usage completion with
                                      | Some u => total_tokens u | None => None end)))
                            (Some completion))))
         end
     | Throw e => Throw e
     end,
     after w (ChatCompletionsCall (modelName (LLM.config this)) prompt)).
Proof.
  intros Hclient. unfold LLM.generate. rewrite Hclient.
  unfold bind, external, after.
  destruct (create_answer client (trace w) (LLM.config this) prompt) as [completion|e];
    [|reflexivity].
  destruct (choices completion); reflexivity.
Qed.

Lemma generate_world (this : LLM.t) (client : OpenAI) (prompt : string) (w : World) :
  LLM.openaiClient this = Some client ->
  snd (LLM.generate this prompt w)
  = after w (ChatCompletionsCall (modelName (LLM.config this)) prompt).
Proof. intros H. now rewrite (generate_with_client this client). Qed.

(** X13. [new LLM(config)] fails exactly when the API key is empty.
    An LLM that is built never answers with the dummy response: every
    [generate] makes one call to the provider, with the prompt, and
    touches no document; it is rejected with the provider's error if
    the provider rejects, and with a TypeError if the completion has no
    choice; otherwise it resolves with the content of the first choice
    (the empty string if there is none), that choice's finish reason,
    and no source documents. *)
Theorem constructed_llm_calls_provider
  (newOpenAI : string -> OpenAI) (config : LLMConfig) :
  (apiKey config = EmptyString
   <-> LLM.new newOpenAI config
       = Throw "OpenAI API key is required for the OpenAI LLM provider.")
  /\ forall this prompt w,
       LLM.new newOpenAI config = Ok this ->
       let answer := create_answer (newOpenAI (apiKey config)) (trace w) config prompt in
       let run := LLM.generate this prompt w in
       snd run = after w (ChatCompletionsCall (modelName config) prompt)
       /\ (forall e, answer = Throw e -> fst run = Throw e)
       /\ (forall completion,
             answer = Ok completion ->
             choices completion = [] ->
             fst run
             = Throw "TypeError: Cannot read properties of undefined (reading 'message')")
       /\ (forall completion choice rest,
             answer = Ok completion ->
             choices completion = choice :: rest ->
             exists response,
               fst run = Ok response
               /\ response_text response
                  = match message_content choice with
                    | Some (Some s) => s
                    | _ => EmptyString
                    end
               /\ sourceDocuments response = None
               /\ exists metadata,
                    response_metadata response = Some metadata
                    /\ finishReason metadata = Some (finish_reason choice)
                    /\ providerResponse metadata = Some completion).
Proof.
  split.
  - unfold LLM.new. destruct (apiKey config); simpl; split;
      try reflexivity; discriminate.
  - intros this prompt w Hnew. unfold LLM.new in Hnew.
    destruct (nonEmpty (apiKey config)); [|discriminate].
    injection Hnew as <-. cbv zeta.
    rewrite (generate_with_client
               (LLM.mk config (Some (newOpenAI (apiKey config))))
               (newOpenAI (apiKey config)) prompt w eq_refl).
    cbn [fst snd LLM.config].
    split; [reflexivity|]. split; [|split].
    + intros e ->. reflexivity.
    + intros completion -> ->. reflexivity.
    + intros completion choice rest -> ->.
      eexists. split; [reflexivity|]. cbn [response_text sourceDocuments response_metadata].
      split; [reflexivity|]. split; [reflexivity|].
      eexists. split; [reflexivity|]. split; reflexivity.
Qed.

(** The sample client answers "answer" and stops. *)
Lemma constructed_llm_calls_provider_witness :
  exists response,
    fst (LLM.generate Sample.llm "prompt" Sample.world) = Ok response
    /\ response_text response = "answer"
    /\ sourceDocuments response = None.
Proof.
  destruct (proj2 (constructed_llm_calls_provider
                     (fun _ => mkOpenAI (fun _ _ _ =>
                        Ok (mkChatCompletion [mkChoice (Some (Some "answer")) "stop"] None)))
                     (mkLLMConfig "gpt-3.5-turbo" "key" None None))
              Sample.llm "prompt" Sample.world eq_refl)
    as (_ & _ & _ & Hok).
  destruct (Hok _ _ _ eq_refl eq_refl) as (response & Hrun & Htext & Hsources & _).
  exists response. split; [exact Hrun|]. split; [exact Htext | exact Hsources].
Defined.

(** ** More on the pipeline *)

(** X14. When [retrieve] resolves with at least one document and the
    LLM has its client, [RAGPipeline.query] calls the generator exactly
    once, with the prompt that the template builds from the formatted
    context and the query; it resolves with the generator's response,
    to which the retrieved documents are attached as
    [sourceDocuments], and is rejected with the generator's error
    when the generator is rejected. *)
Theorem query_with_context_generates_once
  (this : RAGPipeline.t) (query : string) (w w1 : World)
  (documents : list loc) (client : OpenAI) :
  Retriever.retrieve (RAGPipeline.retriever this) query w = (Ok documents, w1) ->
  documents <> [] ->
  LLM.openaiClient (RAGPipeline.llm this) = Some client ->
  let prompt :=
    RAGPipeline.promptTemplate this (Retriever.formatContext (heap w1) documents) query in
  let run := RAGPipeline.query this query w in
  generatorCalls (trace (snd run)) = generatorCalls (trace w) ++ [prompt]
  /\ heap (snd run) = heap w1
  /\ (forall response w2,
        LLM.generate (RAGPipeline.llm this) prompt w1 = (Ok response, w2) ->
        run = (Ok (withSources response documents), w2))
  /\ (forall e w2,
        LLM.generate (RAGPipeline.llm this) prompt w1 = (Throw e, w2) ->
        run = (Throw e, w2)).
Proof.
  intros Hretrieve Hne Hclient prompt run.
  assert (Hrun : run
                 = match LLM.generate (RAGPipeline.llm this) prompt w1 with
                   | (Ok response, w2) => (Ok (withSources response documents), w2)
                   | (Throw e, w2) => (Throw e, w2)
                   end).
  { subst run. unfold RAGPipeline.query, bind at 1. rewrite Hretrieve.
    destruct documents as [|d rest]; [now contradiction Hne|].
    cbn [List.length Nat.eqb]. unfold bind, get_heap. fold prompt.
    destruct (LLM.generate (RAGPipeline.llm this) prompt w1) as [[response|e] w2];
      reflexivity. }
  pose proof (generate_world (RAGPipeline.llm this) client prompt w1 Hclient) as Hworld.
  pose proof (retrieve_generator_frame (RAGPipeline.retriever this) query w) as Hframe.
  rewrite Hretrieve in Hframe. cbn [snd] in Hframe.
  assert (Hsnd : snd run
                 = after w1 (ChatCompletionsCall
                               (modelName (LLM.config (RAGPipeline.llm this))) prompt)).
  { rewrite Hrun, <- Hworld.
    destruct (LLM.generate (RAGPipeline.llm this) prompt w1) as [[response|e] w2];
      reflexivity. }
  split; [|split; [|split]].
  - rewrite Hsnd. unfold after. cbn [trace].
    rewrite generatorCalls_app, Hframe. reflexivity.
  - rewrite Hsnd. reflexivity.
  - intros response w2 Hgen. now rewrite Hrun, Hgen.
  - intros e w2 Hgen. now rewrite Hrun, Hgen.
Qed.

(** The store holds a document scored 0.9: the generator is called
    once and its answer comes back with that document as source. *)
Lemma query_with_context_generates_once_witness :
  generatorCalls
    (trace (snd (RAGPipeline.query (Sample.pipeline Sample.model Sample.scoredStore)
                   "q" Sample.world)))
  = [defaultPromptTemplate "epsilon" "q"]
  /\ exists response,
       fst (RAGPipeline.query (Sample.pipeline Sample.model Sample.scoredStore)
              "q" Sample.world) = Ok response
       /\ response_text response = "answer"
       /\ sourceDocuments response = Some [5].
Proof.
  pose proof (query_with_context_generates_once
                (Sample.pipeline Sample.model Sample.scoredStore) "q" Sample.world
                (after Sample.world
                   (queryCall (Sample.retriever Sample.model Sample.scoredStore) "q"))
                [5]
                (mkOpenAI (fun _ _ _ =>
                   Ok (mkChatCompletion [mkChoice (Some (Some "answer")) "stop"] None)))
                eq_refl ltac:(discriminate) eq_refl) as H.
  cbv zeta in H. destruct H as (Hcalls & _ & Hok & _).
  split; [exact Hcalls|].
  eexists. split.
  - rewrite (Hok _ _ eq_refl). reflexivity.
  - split; reflexivity.
Defined.

(** X15. When [retrieve] is rejected, be it by the embedding provider
    or by the storage backend, [RAGPipeline.query] is rejected with the
    same error and [RAGPipeline.queryStream] ends with it before
    yielding anything; the generator is not called. *)
Theorem query_passes_retrieval_errors_on
  (streaming : OpenAIStreaming) (this : RAGPipeline.t) (query : string)
  (w w1 : World) (e : JsError) :
  Retriever.retrieve (RAGPipeline.retriever this) query w = (Throw e, w1) ->
  RAGPipeline.query this query w = (Throw e, w1)
  /\ queryStream streaming this query w = (([], Some e), w1)
  /\ generatorCalls (trace w1) = generatorCalls (trace w).
Proof.
  intros Hretrieve. split; [|split].
  - unfold RAGPipeline.query, bind. now rewrite Hretrieve.
  - unfold queryStream. now rewrite Hretrieve.
  - pose proof (retrieve_generator_frame (RAGPipeline.retriever this) query w) as H.
    now rewrite Hretrieve in H.
Qed.

(** Astra DB is out of reach: the query is rejected with its error. *)
Lemma query_passes_retrieval_errors_on_witness :
  fst (RAGPipeline.query
         (Sample.pipeline Sample.model (Demo.astraStore Demo.failingCollection))
         "q" Sample.world)
  = Throw "503 Service Unavailable"
  /\ fst (queryStream Demo.streaming
            (Sample.pipeline Sample.model (Demo.astraStore Demo.failingCollection))
            "q" Sample.world)
     = ([], Some "503 Service Unavailable").
Proof.
  destruct (query_passes_retrieval_errors_on Demo.streaming
              (Sample.pipeline Sample.model (Demo.astraStore Demo.failingCollection))
              "q" Sample.world
              (snd (Retriever.retrieve
                      (Sample.retriever Sample.model (Demo.astraStore Demo.failingCollection))
                      "q" Sample.world))
              "503 Service Unavailable" eq_refl)
    as (Hquery & Hstream & _).
  split.
  - now rewrite Hquery.
  - now rewrite Hstream.
Defined.

(** ** Streaming *)

(** X16. When [retrieve] resolves with no document,
    [RAGPipeline.queryStream] yields the fixed text of the no-context
    answer once and ends, in the world that [retrieve] left: the
    generator is not called. *)
Theorem queryStream_without_context_yields_fixed_text
  (streaming : OpenAIStreaming) (this : RAGPipeline.t) (query : string) (w w1 : World) :
  Retriever.retrieve (RAGPipeline.retriever this) query w = (Ok [], w1) ->
  queryStream streaming this query w
  = ((["I couldn't find any specific information related to your query in my current knowledge base."], None),
     w1)
  /\ generatorCalls (trace w1) = generatorCalls (trace w).
Proof.
  intros Hretrieve. split.
  - unfold queryStream. now rewrite Hretrieve.
  - pose proof (retrieve_generator_frame (RAGPipeline.retriever this) query w) as H.
    now rewrite Hretrieve in H.
Qed.

(** All stored documents are scored below the threshold: one chunk,
    the fixed text. *)
Lemma queryStream_without_context_yields_fixed_text_witness :
  fst (queryStream Demo.streaming (Sample.pipeline Sample.model Sample.lowStore)
         "q" Sample.world)
  = (["I couldn't find any specific information related to your query in my current knowledge base."], None).
Proof.
  destruct (queryStream_without_context_yields_fixed_text Demo.streaming
              (Sample.pipeline Sample.model Sample.lowStore) "q" Sample.world
              (after Sample.world
                 (queryCall (Sample.retriever Sample.model Sample.lowStore) "q"))
              eq_refl) as [Hrun _].
  now rewrite Hrun.
Defined.

(** X17. When [retrieve] resolves with at least one document and the
    LLM has its client, [RAGPipeline.queryStream] makes one call to
    the provider, with the prompt that [query] would use, and yields
    one string per chunk of the stream, in order: the content of the
    chunk, or the empty string for a chunk without content. It ends
    with the error of the stream if the stream fails, and yields
    nothing if the call itself is rejected. *)
Theorem queryStream_with_context_yields_chunks
  (streaming : OpenAIStreaming) (this : RAGPipeline.t) (query : string)
  (w w1 : World) (documents : list loc) (client : OpenAI) :
  Retriever.retrieve (RAGPipeline.retriever this) query w = (Ok documents, w1) ->
  documents <> [] ->
  LLM.openaiClient (RAGPipeline.llm this) = Some client ->
  let prompt :=
    RAGPipeline.promptTemplate this (Retriever.formatContext (heap w1) documents) query in
  let config := LLM.config (RAGPipeline.llm this) in
  let run := queryStream streaming this query w in
  snd run = after w1 (ChatCompletionsCall (modelName config) prompt)
  /\ (forall e,
        stream_answer streaming (trace w1) config prompt = Throw e ->
        fst run = ([], Some e))
  /\ (forall chunks failure,
        stream_answer streaming (trace w1) config prompt = Ok (chunks, failure) ->
        exists yielded,
          fst run = (yielded, failure)
          /\ List.length yielded = List.length chunks
          /\ forall i chunk,
               nth_error chunks i = Some chunk ->
               nth_error yielded i
               = Some (match delta_content chunk with
                       | Some s => s
                       | None => EmptyString
                       end)).
Proof.
  intros Hretrieve Hne Hclient. cbv zeta.
  unfold queryStream. rewrite Hretrieve.
  assert (Hlen : (List.length documents =? 0) = false)
    by (destruct documents; [now contradiction Hne | reflexivity]).
  rewrite Hlen. unfold generateStream. rewrite Hclient.
  destruct (stream_answer streaming (trace w1) (LLM.config (RAGPipeline.llm this))
              (RAGPipeline.promptTemplate this
                 (Retriever.formatContext (heap w1) documents) query))
    as [[chunks failure]|e].
  - cbn [fst snd]. split; [reflexivity|]. split; [discriminate|].
    intros chunks' failure' H. injection H as <- <-.
    eexists. split; [reflexivity|]. split; [apply length_map|].
    intros i chunk Hnth. now rewrite nth_error_map, Hnth.
  - cbn [fst snd]. split; [reflexivity|]. split; [|discriminate].
    intros e' H. now injection H as <-.
Qed.

(** Three chunks, the second without content: three strings, the
    second one empty. *)
Lemma queryStream_with_context_yields_chunks_witness :
  exists yielded,
    fst (queryStream Demo.streaming (Sample.pipeline Sample.model Sample.scoredStore)
           "q" Sample.world)
    = (yielded, None)
    /\ List.length yielded = 3
    /\ nth_error yielded 1 = Some EmptyString.
Proof.
  pose proof (queryStream_with_context_yields_chunks Demo.streaming
                (Sample.pipeline Sample.model Sample.scoredStore) "q" Sample.world
                (after Sample.world
                   (queryCall (Sample.retriever Sample.model Sample.scoredStore) "q"))
                [5]
                (mkOpenAI (fun _ _ _ =>
                   Ok (mkChatCompletion [mkChoice (Some (Some "answer")) "stop"] None)))
                eq_refl ltac:(discriminate) eq_refl) as H.
  cbv zeta in H. destruct H as (_ & _ & Hok).
  destruct (Hok _ _ eq_refl) as (yielded & Hrun & Hlen & Hnth).
  exists yielded. split; [exact Hrun|]. split; [exact Hlen|].
  exact (Hnth 1 (mkStreamChunk None) eq_refl).
Defined.

(** ** Ingestion *)

(** X18. [RAGPipeline.ingestData] without a [DataLoader] does nothing.
    With one, it has the loader create two new documents, "doc1" and
    "doc2", whose metadata name the source, leaves the existing
    documents alone, and hands the two to [addDocuments]: the
    embedding provider of the store is called once, with their two
    contents. *)
Theorem ingestData_embeds_loaded_chunks
  (loader : DataLoader.t) (this : RAGPipeline.t) (w : World) :
  let doc1 := nextLoc w in
  let doc2 := S (nextLoc w) in
  let loaded := snd (DataLoader.loadAndChunk loader w) in
  ingestData None this w = (Ok this, w)
  /\ DataLoader.loadAndChunk loader w = (Ok [doc1; doc2], loaded)
  /\ RagDocument.id (heap loaded doc1) = "doc1"
  /\ RagDocument.id (heap loaded doc2) = "doc2"
  /\ RagDocument.metadata (heap loaded doc1) = Some [("source", DataLoader.source loader)]
  /\ RagDocument.metadata (heap loaded doc2) = Some [("source", DataLoader.source loader)]
  /\ (forall l, l < nextLoc w -> heap loaded l = heap w l)
  /\ ingestData (Some loader) this w = RAGPipeline.addDocuments this [doc1; doc2] loaded
  /\ embeddingCalls (trace (snd (ingestData (Some loader) this w)))
     = embeddingCalls (trace w)
       ++ [["This is the first chunk of data from the source.";
            "This is the second chunk of data, processed and ready."]].
Proof.
  cbv zeta.
  set (d1 := RagDocument.mk "doc1" "This is the first chunk of data from the source."
               (Some [("source", DataLoader.source loader)]) None None).
  set (d2 := RagDocument.mk "doc2" "This is the second chunk of data, processed and ready."
               (Some [("source", DataLoader.source loader)]) None None).
  assert (Hload : DataLoader.loadAndChunk loader w
                  = (Ok [nextLoc w; S (nextLoc w)],
                     mkWorld (upd (upd (heap w) (nextLoc w) d1) (S (nextLoc w)) d2)
                             (S (S (nextLoc w))) (trace w))) by reflexivity.
  rewrite Hload. cbn [snd heap].
  assert (H1 : upd (upd (heap w) (nextLoc w) d1) (S (nextLoc w)) d2 (nextLoc w) = d1).
  { rewrite upd_other by lia. apply upd_same. }
  assert (H2 : upd (upd (heap w) (nextLoc w) d1) (S (nextLoc w)) d2 (S (nextLoc w)) = d2)
    by apply upd_same.
  rewrite H1, H2.
  split; [reflexivity|]. split; [reflexivity|].
  split; [reflexivity|]. split; [reflexivity|].
  split; [reflexivity|]. split; [reflexivity|].
  split; [intros l Hl; now rewrite !upd_other by lia|].
  assert (Hingest : ingestData (Some loader) this w
                    = RAGPipeline.addDocuments this [nextLoc w; S (nextLoc w)]
                        (mkWorld (upd (upd (heap w) (nextLoc w) d1) (S (nextLoc w)) d2)
                                 (S (S (nextLoc w))) (trace w))).
  { unfold ingestData, bind at 1. now rewrite Hload. }
  split; [exact Hingest|].
  rewrite Hingest.
  set (w0 := mkWorld (upd (upd (heap w) (nextLoc w) d1) (S (nextLoc w)) d2)
                     (S (S (nextLoc w))) (trace w)).
  assert (Hsnd : snd (RAGPipeline.addDocuments this [nextLoc w; S (nextLoc w)] w0)
                 = snd (VectorStore.addDocuments (RAGPipeline.vectorStore this)
                          [nextLoc w; S (nextLoc w)] w0)).
  { unfold RAGPipeline.addDocuments, bind.
    destruct (VectorStore.addDocuments (RAGPipeline.vectorStore this)
                [nextLoc w; S (nextLoc w)] w0) as [[store|e] w']; reflexivity. }
  rewrite Hsnd.
  destruct (addDocuments_effects (RAGPipeline.vectorStore this)
              [nextLoc w; S (nextLoc w)] w0) as [_ H].
  assert (Hbatch : docsToEmbed w0 [nextLoc w; S (nextLoc w)] = [nextLoc w; S (nextLoc w)]).
  { unfold docsToEmbed. cbn [filter]. unfold VectorStore.needsEmbedding, w0.
    cbn [heap]. rewrite H1, H2. reflexivity. }
  rewrite Hbatch in H. destruct H as [H _]. rewrite H.
  unfold batchContents. rewrite Hbatch. unfold w0. cbn [map heap trace].
  now rewrite H1, H2.
Qed.

(** The sample loader has an empty path and a URL: the two documents
    are created after the seven that exist and name the URL. *)
Lemma ingestData_embeds_loaded_chunks_witness :
  fst (DataLoader.loadAndChunk Demo.loader Sample.world) = Ok [7; 8]
  /\ RagDocument.metadata
       (heap (snd (DataLoader.loadAndChunk Demo.loader Sample.world)) 8)
     = Some [("source", "https://example.com")]
  /\ heap (snd (DataLoader.loadAndChunk Demo.loader Sample.world)) 2 = Sample.documents 2.
Proof.
  pose proof (ingestData_embeds_loaded_chunks Demo.loader
                (Sample.pipeline Sample.model Sample.emptyStore) Sample.world) as H.
  cbv zeta in H. destruct H as (_ & Hload & _ & _ & _ & Hmeta & Hold & _).
  split; [now rewrite Hload|]. split; [exact Hmeta|].
  apply Hold. simpl. lia.
Defined.

(** ** The placeholder model *)

(** X19. The placeholder embedding model never rejects and answers
    one vector of 1536 components per text, none for no text; so a
    store built without a model has a provider that answers every
    text of every batch. *)
Theorem placeholder_answers_every_text
  (random : list Event -> nat -> nat -> number) (history : list Event)
  (texts : list string) :
  (exists embeddings,
      EmbeddingModel.respond (PlaceholderEmbeddingModel random) history texts
      = Ok embeddings
      /\ List.length embeddings = List.length texts
      /\ forall v, In v embeddings -> List.length v = 1536)
  /\ EmbeddingModel.respond (PlaceholderEmbeddingModel random) history [] = Ok []
  /\ forall connect config this w documents,
       VectorStore.new connect random config None = Ok this ->
       answersEveryText this w documents.
Proof.
  split; [|split].
  - eexists. split; [reflexivity|]. split.
    + now rewrite length_map, length_seq.
    + intros v Hv. apply in_map_iff in Hv. destruct Hv as (i & <- & _).
      now rewrite length_map, length_seq.
  - reflexivity.
  - intros connect config this w documents Hnew.
    assert (Hmodel : VectorStore.embeddingModel this = PlaceholderEmbeddingModel random).
    { unfold VectorStore.new in Hnew.
      destruct config as [|token endpoint name keyspace dimension].
      - now injection Hnew as <-.
      - destruct (connect token endpoint keyspace name); [|discriminate].
        now injection Hnew as <-. }
    unfold answersEveryText.
    destruct (docsToEmbed w documents) as [|d rest] eqn:E; [exact I|].
    eexists. split.
    + unfold batchAnswer. rewrite Hmodel. reflexivity.
    + rewrite length_map, length_seq. unfold batchContents.
      rewrite length_map, E. reflexivity.
Qed.

(** A store built without a model answers the one text of the
    revision of "a". *)
Lemma placeholder_answers_every_text_witness :
  answersEveryText
    (VectorStore.mk InMemoryStoreConfig (PlaceholderEmbeddingModel Demo.random)
       (Some JsMap.empty) None)
    Sample.world [2].
Proof.
  exact (proj2 (proj2 (placeholder_answers_every_text Demo.random [] []))
           Demo.connect InMemoryStoreConfig _ Sample.world [2] eq_refl).
Defined.

(** ** More on [formatContext] and on the tunables *)

Lemma joinTail_app (arr1 arr2 : list string) (separator : string) :
  joinTail (arr1 ++ arr2) separator
  = (joinTail arr1 separator ++ joinTail arr2 separator)%string.
Proof.
  induction arr1 as [|element rest IH]; simpl; [reflexivity|].
  now rewrite IH, !string_app_assoc.
Qed.

(** X20. [Retriever.formatContext] of one document is its content,
    without any separator, and the context of two sequences put end to
    end, none of them empty, is the context of the first, the
    separator, and the context of the second. *)
Theorem formatContext_of_concatenation (h : Heap) (documents1 documents2 : list loc) :
  (forall doc, Retriever.formatContext h [doc] = RagDocument.content (h doc))
  /\ (documents1 <> [] ->
      documents2 <> [] ->
      Retriever.formatContext h (documents1 ++ documents2)
      = (Retriever.formatContext h documents1
           ++ Retriever.separator
           ++ Retriever.formatContext h documents2)%string).
Proof.
  unfold Retriever.formatContext. split.
  - intros doc. simpl. rewrite join_cons. simpl. apply string_app_nil_r.
  - intros H1 H2.
    destruct documents1 as [|d1 rest1]; [now contradiction H1|].
    destruct documents2 as [|d2 rest2]; [now contradiction H2|].
    rewrite map_app. cbn [map app]. rewrite !join_cons.
    rewrite joinTail_app. cbn [joinTail].
    now rewrite !string_app_assoc.
Qed.

(** Two documents and then a third. *)
Lemma formatContext_of_concatenation_witness :
  Retriever.formatContext Sample.documents ([0; 1] ++ [4])
  = (Retriever.formatContext Sample.documents [0; 1]
       ++ Retriever.separator ++ "delta")%string.
Proof.
  exact (proj2 (formatContext_of_concatenation Sample.documents [0; 1] [4])
           ltac:(discriminate) ltac:(discriminate)).
Defined.

Lemma or_default_truthy (x : option number) (d : number) :
  truthy d = true -> truthy (or_default x d) = true.
Proof.
  intros Hd. unfold or_default.
  destruct x as [n|]; [|exact Hd].
  destruct (truthy n) eqn:E; [exact E | exact Hd].
Qed.

(** X21. Whatever the configuration, a retriever that is built, alone
    or by a pipeline, holds a [topK] and a threshold that are neither 0
    nor NaN; an absent or NaN value gives the default, 5 or 0.7. *)
Theorem built_retriever_has_truthy_tunables
  (store : VectorStore.t) (model : EmbeddingModel.t) (llm : LLM.t)
  (template : option (string -> string -> string))
  (topK similarityThreshold : option number) :
  let r := Retriever.new (mkRetrieverConfig store model topK similarityThreshold) in
  let p := RAGPipeline.retriever
             (RAGPipeline.new
                (mkRAGPipelineConfig store model llm topK similarityThreshold template)) in
  truthy (Retriever.topK r) = true
  /\ truthy (Retriever.similarityThreshold r) = true
  /\ truthy (Retriever.topK p) = true
  /\ truthy (Retriever.similarityThreshold p) = true
  /\ (topK = None \/ topK = Some NaN ->
      Retriever.topK r = Fin 5 /\ Retriever.topK p = Fin 5)
  /\ (similarityThreshold = None \/ similarityThreshold = Some NaN ->
      Retriever.similarityThreshold r = Fin (7 # 10)
      /\ Retriever.similarityThreshold p = Fin (7 # 10)).
Proof.
  cbv zeta.
  unfold RAGPipeline.new, Retriever.new.
  cbn [RAGPipeline.retriever Retriever.topK Retriever.similarityThreshold
       cfg_topK cfg_similarityThreshold pcfg_retrieverTopK
       pcfg_retrieverSimilarityThreshold].
  split; [now apply or_default_truthy|].
  split; [now apply or_default_truthy|].
  split; [now apply or_default_truthy|].
  split; [now apply or_default_truthy|].
  split.
  - intros [->| ->]; split; reflexivity.
  - intros [->| ->]; split; reflexivity.
Qed.

(** A threshold of NaN gives 0.7. *)
Lemma built_retriever_has_truthy_tunables_witness :
  Retriever.similarityThreshold
    (Retriever.new (mkRetrieverConfig Sample.emptyStore Sample.model None (Some NaN)))
  = Fin (7 # 10)
  /\ Retriever.similarityThreshold
       (RAGPipeline.retriever
          (RAGPipeline.new
             (mkRAGPipelineConfig Sample.emptyStore Sample.model Sample.llm
                None (Some NaN) None)))
     = Fin (7 # 10).
Proof.
  pose proof (built_retriever_has_truthy_tunables Sample.emptyStore Sample.model
                Sample.llm None None (Some NaN)) as H.
  cbv zeta in H. destruct H as (_ & _ & _ & _ & _ & Hthreshold).
  apply Hthreshold. now right.
Defined.

(** ** From [addDocuments] to [retrieve] *)

Lemma JsMap_set_absent {V : Type} (k : string) (v : V) (m : JsMap.t V) :
  ~ In k (JsMap.keys m) -> JsMap.set k v m = m ++ [(k, v)].
Proof.
  induction m as [|[k' v'] rest IH]; simpl; intros Hk; [reflexivity|].
  destruct (String.eqb_spec k' k) as [->|Hneq].
  - exfalso. apply Hk. now left.
  - f_equal. apply IH. intros H. apply Hk. now right.
Qed.

(** Documents that all carry an embedding, under ids that are distinct
    and new to the store, are appended in input order. *)
Lemma storeAll_fresh (h : Heap) (docs : list loc) :
  forall store,
    (forall doc, In doc docs -> RagDocument.embedding (h doc) <> None) ->
    NoDup (JsMap.keys store ++ map (fun doc => RagDocument.id (h doc)) docs) ->
    VectorStore.storeAll h docs store
    = store ++ map (fun doc => (RagDocument.id (h doc), doc)) docs.
Proof.
  induction docs as [|doc rest IH]; intros store Hemb Hnd.
  - simpl. now rewrite app_nil_r.
  - rewrite storeAll_cons.
    rewrite (proj2 (isSome_true _) (Hemb doc (or_introl eq_refl))).
    simpl in Hnd.
    rewrite JsMap_set_absent.
    + rewrite IH.
      * rewrite <- app_assoc. reflexivity.
      * intros d Hd. apply Hemb. now right.
      * unfold JsMap.keys in *. rewrite map_app. simpl. rewrite <- app_assoc. exact Hnd.
    + apply NoDup_remove_2 in Hnd. intros H. apply Hnd. apply in_or_app. now left.
Qed.

(** X22. From ingestion to retrieval on the in-memory backend: when
    documents with content, without similarity and with distinct ids
    are added through the pipeline to an empty store whose provider
    answers every text, and [topK] is at least their number, a
    [retrieve] that gets its query embedded resolves with exactly
    these documents, in the order in which they were given. *)
Theorem pipeline_retrieves_added_documents
  (this this' : RAGPipeline.t) (documents : list loc) (w w' : World)
  (query : string) (topK : Q)
  (queryEmbedding : list number) (others : list (list number)) :
  VectorStore.config (RAGPipeline.vectorStore this) = InMemoryStoreConfig ->
  VectorStore.inMemoryStore (RAGPipeline.vectorStore this) = Some [] ->
  answersEveryText (RAGPipeline.vectorStore this) w documents ->
  (forall doc,
      In doc documents ->
      RagDocument.content (heap w doc) <> EmptyString
      /\ RagDocument.similarity (heap w doc) = None) ->
  NoDup (map (fun doc => RagDocument.id (heap w doc)) documents) ->
  RAGPipeline.addDocuments this documents w = (Ok this', w') ->
  Retriever.topK (RAGPipeline.retriever this) = Fin topK ->
  (inject_Z (Z.of_nat (List.length documents)) <= topK)%Q ->
  EmbeddingModel.respond (Retriever.embeddingModel (RAGPipeline.retriever this'))
    (trace w') [query] = Ok (queryEmbedding :: others) ->
  Retriever.retrieve (RAGPipeline.retriever this') query w'
  = (Ok documents, after w' (queryCall (RAGPipeline.retriever this') query)).
Proof.
  intros Hc Hs Hanswers Hdocs Hnd Hadd HtopK Hlen Hembed.
  unfold RAGPipeline.addDocuments, bind in Hadd.
  destruct (VectorStore.addDocuments (RAGPipeline.vectorStore this) documents w)
    as [[store'|e] w0] eqn:Hrun; [|discriminate].
  unfold ret in Hadd. injection Hadd as <- <-.
  destruct (addDocuments_inMemory _ _ _ _ _ _ Hc Hs Hrun) as [Hc' Hs'].
  assert (Hframe : forall doc, sameButEmbedding (heap w doc) (heap w0 doc)).
  { intros doc. pose proof (addDocuments_keeps_fields
                              (RAGPipeline.vectorStore this) documents w doc) as H.
    now rewrite Hrun in H. }
  assert (Hemb : forall doc, In doc documents ->
                             RagDocument.embedding (heap w0 doc) <> None).
  { intros doc Hin.
    pose proof (addDocuments_embeds_content (RAGPipeline.vectorStore this) documents w doc
                  Hanswers Hin (proj1 (Hdocs doc Hin))) as H.
    now rewrite Hrun in H. }
  assert (Hids : map (fun doc => RagDocument.id (heap w0 doc)) documents
                 = map (fun doc => RagDocument.id (heap w doc)) documents).
  { apply map_ext. intros doc. now destruct (Hframe doc) as (H & _). }
  rewrite (storeAll_fresh (heap w0) documents [] Hemb) in Hs'
    by (simpl; rewrite Hids; exact Hnd).
  simpl in Hs'.
  rewrite retrieve_run.
  cbn [RAGPipeline.retriever Retriever.embeddingModel Retriever.vectorStore
       Retriever.topK] in *.
  rewrite Hembed, HtopK.
  unfold VectorStore.similaritySearch. rewrite Hc', Hs'. unfold ret.
  assert (Hq : (0 <= topK)%Q).
  { eapply Qle_trans; [|exact Hlen]. unfold Qle. simpl. lia. }
  rewrite slice0_nonneg by exact Hq.
  unfold JsMap.values. rewrite map_map. cbn [snd]. rewrite map_id.
  assert (Hfloor : (Z.of_nat (List.length documents) <= Qfloor topK)%Z).
  { rewrite <- (Qfloor_Z (Z.of_nat (List.length documents))).
    now apply Qfloor_resp_le. }
  rewrite firstn_all2 by lia.
  rewrite filter_all; [reflexivity|].
  intros doc Hin. unfold Retriever.isRelevant. cbn [after heap].
  destruct (Hframe doc) as (_ & _ & _ & Hsim).
  now rewrite Hsim, (proj2 (Hdocs doc Hin)).
Qed.

(** Documents "a" and "b" are added to an empty pipeline and come back
    from [retrieve], in that order. *)
Lemma pipeline_retrieves_added_documents_witness :
  exists this' w',
    RAGPipeline.addDocuments (Sample.pipeline Sample.model Sample.emptyStore)
      [0; 1] Sample.world = (Ok this', w')
    /\ fst (Retriever.retrieve (RAGPipeline.retriever this') "q" w') = Ok [0; 1].
Proof.
  eexists. eexists. split; [reflexivity|].
  erewrite (pipeline_retrieves_added_documents
              (Sample.pipeline Sample.model Sample.emptyStore) _ [0; 1] Sample.world _
              "q" 5 (map Fin Sample.e2) []).
  - reflexivity.
  - reflexivity.
  - reflexivity.
  - exact I.
  - intros doc [<-|[<-|[]]]; split; (discriminate || reflexivity).
  - repeat constructor; simpl; intuition discriminate.
  - reflexivity.
  - reflexivity.
  - discriminate.
  - reflexivity.
Defined.
